(** * todo_app.py: the in-memory task store and its console handlers

    A shallow embedding of [src/todo_app.py].  The classes [Task] and
    [TaskList] become records inside modules of the same name and every
    method becomes a function that threads the [TaskList] object through
    ([self] goes in, the result and the object as it is after the call come
    out).  The console handlers run in a small monad over the store, the
    lines waiting on standard input and the text written so far. *)

From Stdlib Require Import ZArith List String Ascii Bool Lia.
From Stdlib Require Import DecimalString Sorted.
From Stdlib Require Decimal DecimalPos.
Import ListNotations.

Local Open Scope Z_scope.

(** ** Python's [dict] with integer keys

    A [dict] iterates in insertion order, assigning to a key that is present
    keeps the key's position, and a key occurs once.  An association list
    read from the left, with assignment that overwrites in place and appends
    otherwise, is exactly that. *)
Module Dict.
Section WithValue.
Context {V : Type}.

Definition t : Type := list (Z * V).

Definition empty : t := [].

(** [d.get(k)] *)
Fixpoint get (k : Z) (d : t) : option V :=
  match d with
  | [] => None
  | (k', v) :: r => if k =? k' then Some v else get k r
  end.

(** [k in d] *)
Definition contains (k : Z) (d : t) : bool :=
  match get k d with Some _ => true | None => false end.

(** [d[k] = v] *)
Fixpoint set (k : Z) (v : V) (d : t) : t :=
  match d with
  | [] => [(k, v)]
  | (k', v') :: r => if k =? k' then (k', v) :: r else (k', v') :: set k v r
  end.

(** [del d[k]], for a key that is present *)
Definition del (k : Z) (d : t) : t :=
  filter (fun e => negb (k =? fst e)) d.

(** [list(d.keys())] and [list(d.values())] *)
Definition keys (d : t) : list Z := map fst d.
Definition values (d : t) : list V := map snd d.
End WithValue.
Arguments t : clear implicits.
End Dict.

(** ** class Task *)
Module Task.
Record t : Type := mk {
  id : Z;
  title : string;
  description : option string;
  completed : bool
}.

(** [Task(task_id, title, description=None, completed=False)] *)
Definition init (task_id : Z) (title : string)
    (description : option string) (completed : bool) : t :=
  mk task_id title description completed.

(** attribute assignments [task.title = x], [task.description = x],
    [task.completed = x] *)
Definition set_title (x : string) (task : t) : t :=
  mk (id task) x (description task) (completed task).
Definition set_description (x : option string) (task : t) : t :=
  mk (id task) (title task) x (completed task).
Definition set_completed (x : bool) (task : t) : t :=
  mk (id task) (title task) (description task) x.
End Task.

(** ** class TaskList *)
Module TaskList.
Record t : Type := mk {
  tasks : Dict.t Task.t;
  next_id : Z
}.

(** [__init__] *)
Definition init : t := mk Dict.empty 1.

(** [add_task(self, title, description=None)] *)
Definition add_task (title : string) (description : option string)
    (self : t) : Task.t * t :=
  let task := Task.init (next_id self) title description false in
  (task, mk (Dict.set (next_id self) task (tasks self)) (next_id self + 1)).

(** [get_all_tasks(self)] *)
Definition get_all_tasks (self : t) : list Task.t * t :=
  (Dict.values (tasks self), self).

(** [get_task_by_id(self, task_id)] *)
Definition get_task_by_id (task_id : Z) (self : t) : option Task.t * t :=
  (Dict.get task_id (tasks self), self).

(** [update_task(self, task_id, title=None, description=None)].  The
    membership test and the subscript that follows it are one lookup; the
    two attribute assignments act on the object the dict holds, so the
    entry is overwritten where it stands. *)
Definition update_task (task_id : Z) (title description : option string)
    (self : t) : bool * t :=
  match Dict.get task_id (tasks self) with
  | None => (false, self)
  | Some task =>
      let task :=
        match title with
        | Some x => Task.set_title x task
        | None => task
        end in
      let task :=
        match description with
        | Some x => Task.set_description (Some x) task
        | None => task
        end in
      (true, mk (Dict.set task_id task (tasks self)) (next_id self))
  end.

(** [delete_task(self, task_id)] *)
Definition delete_task (task_id : Z) (self : t) : bool * t :=
  if negb (Dict.contains task_id (tasks self)) then (false, self)
  else (true, mk (Dict.del task_id (tasks self)) (next_id self)).

(** [toggle_task_completion(self, task_id)] *)
Definition toggle_task_completion (task_id : Z) (self : t) : bool * t :=
  match Dict.get task_id (tasks self) with
  | None => (false, self)
  | Some task =>
      let task := Task.set_completed (negb (Task.completed task)) task in
      (true, mk (Dict.set task_id task (tasks self)) (next_id self))
  end.
End TaskList.


(** ** Sequences of store operations

    What a process does to its [TaskList] over its lifetime is a sequence of
    calls of the four mutating methods, starting from [TaskList.init]. *)
Inductive op : Type :=
| Add (title : string) (description : option string)
| Update (task_id : Z) (title description : option string)
| Delete (task_id : Z)
| Toggle (task_id : Z).

(** One call: the identifier handed out, if the call was a creation, and
    the store after it. *)
Definition step (o : op) (s : TaskList.t) : option Z * TaskList.t :=
  match o with
  | Add title description =>
      let (task, s') := TaskList.add_task title description s in
      (Some (Task.id task), s')
  | Update task_id title description =>
      (None, snd (TaskList.update_task task_id title description s))
  | Delete task_id => (None, snd (TaskList.delete_task task_id s))
  | Toggle task_id => (None, snd (TaskList.toggle_task_completion task_id s))
  end.

(** A history: the identifiers handed out so far, oldest first, and the
    store. *)
Definition history : Type := (list Z * TaskList.t)%type.

Definition record (h : history) (o : op) : history :=
  let (created, s) := step o (snd h) in
  (match created with
   | Some i => fst h ++ [i]
   | None => fst h
   end, s).

Definition exec_from (h : history) (ops : list op) : history :=
  fold_left record ops h.

Definition exec (ops : list op) : history :=
  exec_from ([], TaskList.init) ops.

Definition creations (ops : list op) : nat :=
  List.length (filter (fun o => match o with Add _ _ => true | _ => false end) ops).

(** The identifiers [first], [first + 1], ... ([n] of them). *)
Fixpoint count_from (first : Z) (n : nat) : list Z :=
  match n with
  | O => []
  | S n' => first :: count_from (first + 1) n'
  end.

(** ** Text

    A [str] is a [string] whose characters are the code points below 256.
    On that range [str.isspace] holds of the code points 9 to 13, 28 to 32,
    133 and 160, and the only decimal digits are the ASCII ones. *)
Local Open Scope string_scope.

Definition nl : string := String (ascii_of_nat 10) "".

Definition isspace (c : ascii) : bool :=
  let n := Z.of_N (N_of_ascii c) in
  (((9 <=? n) && (n <=? 13)) || ((28 <=? n) && (n <=? 32))
   || (n =? 133) || (n =? 160))%Z.

Fixpoint lstrip (s : string) : string :=
  match s with
  | "" => ""
  | String c r => if isspace c then lstrip r else s
  end.

Fixpoint rstrip (s : string) : string :=
  match s with
  | "" => ""
  | String c r =>
      match rstrip r with
      | "" => if isspace c then "" else String c ""
      | r' => String c r'
      end
  end.

(** [s.strip()] *)
Definition strip (s : string) : string := rstrip (lstrip s).

(** Truth value of a [str]: [if s], [not s], [s or x]. *)
Definition truthy (s : string) : bool :=
  match s with
  | "" => false
  | _ => true
  end.

Definition digit (c : ascii) : option Z :=
  let n := Z.of_N (N_of_ascii c) in
  if ((48 <=? n) && (n <=? 57))%Z then Some (n - 48) else None.

(** The digits after the first one; single underscores may separate them.
    [sep] tells that the character before was an underscore. *)
Fixpoint int_digits (acc : Z) (sep : bool) (s : string) : option Z :=
  match s with
  | "" => if sep then None else Some acc
  | String c r =>
      if Ascii.eqb c "_" then
        if sep then None else int_digits acc true r
      else
        match digit c with
        | Some d => int_digits (10 * acc + d) false r
        | None => None
        end
  end.

Definition int_unsigned (s : string) : option Z :=
  match s with
  | "" => None
  | String c r =>
      match digit c with
      | Some d => int_digits d false r
      | None => None
      end
  end.

(** [int(s)] in base ten; [None] stands for [ValueError].  (CPython's
    optional limit on the number of digits is not part of the model.) *)
Definition py_int (s : string) : option Z :=
  match strip s with
  | String "+" r => int_unsigned r
  | String "-" r => option_map Z.opp (int_unsigned r)
  | s' => int_unsigned s'
  end.

(** [str(n)], as an f-string formats an [int] *)
Definition py_str (n : Z) : string := NilZero.string_of_int (Z.to_int n).

(** ** The console

    A handler reads lines from standard input, writes to standard output
    and calls methods of the one [TaskList] object; it ends normally or
    with an exception that travels up to the main loop.

    The exceptions are those that a statement of the handlers can raise:
    [EOFError] from [input], [ValueError] from [int], [AttributeError] from
    an attribute read off [None].  [KeyboardInterrupt] is not among them: it
    is sent from outside, at any moment, and what is proved of a handler is
    proved of its runs in which none is sent. *)
Inductive exn : Type := EOFError | ValueError | AttributeError.

Record world : Type := World {
  task_list : TaskList.t;
  stdin : list string;
  stdout : list string
}.

Inductive result (A : Type) : Type :=
| Return (a : A) (w : world)
| Raise (e : exn) (w : world).
Arguments Return {A} a w.
Arguments Raise {A} e w.

Definition io (A : Type) : Type := world -> result A.

Definition ret {A : Type} (a : A) : io A := fun w => Return a w.

Definition bind {A B : Type} (m : io A) (k : A -> io B) : io B :=
  fun w =>
    match m w with
    | Return a w' => k a w'
    | Raise e w' => Raise e w'
    end.

Declare Scope io_scope.
Delimit Scope io_scope with io.
Notation "x <- m ;; k" := (bind m (fun x => k))
  (at level 61, m at next level, right associativity) : io_scope.
Notation "m ;; k" := (bind m (fun _ => k))
  (at level 61, right associativity) : io_scope.

Definition raise {A : Type} (e : exn) : io A := fun w => Raise e w.

(** [print(s)] *)
Definition print (s : string) : io unit :=
  fun w => Return tt (World (task_list w) (stdin w) (stdout w ++ [s ++ nl])).

(** [input(prompt)]: the prompt is written, a line is taken off standard
    input; none left is [EOFError]. *)
Definition input (prompt : string) : io string :=
  fun w =>
    let out := (stdout w ++ [prompt])%list in
    match stdin w with
    | [] => Raise EOFError (World (task_list w) [] out)
    | line :: rest => Return line (World (task_list w) rest out)
    end.

(** A method call on [task_list]. *)
Definition call {A : Type} (method : TaskList.t -> A * TaskList.t) : io A :=
  fun w =>
    let (a, s) := method (task_list w) in
    Return a (World s (stdin w) (stdout w)).

(** [int(s)] as a statement that may raise *)
Definition int (s : string) : io Z :=
  match py_int s with
  | Some n => ret n
  | None => raise ValueError
  end.

(** [try: body except ValueError: handler] *)
Definition try_except_ValueError {A : Type} (body handler : io A) : io A :=
  fun w =>
    match body w with
    | Raise ValueError w' => handler w'
    | r => r
    end.

Local Open Scope io_scope.

(** ** The handlers *)

(** [add_task(task_list)] *)
Definition add_task : io unit :=
  print (nl ++ "--- Add New Task ---") ;;
  line <- input "Enter task title: " ;;
  let title := strip line in
  if negb (truthy title) then
    print "Task title cannot be empty!"
  else
    line <- input "Enter task description (optional): " ;;
    let description := strip line in
    let description :=
      if negb (truthy description) then None else Some description in
    task <- call (TaskList.add_task title description) ;;
    print ("Task added successfully with ID: " ++ py_str (Task.id task)).

(** [task.description or 'None'] *)
Definition description_or_None (description : option string) : string :=
  match description with
  | Some d => if truthy d then d else "None"
  | None => "None"
  end.

(** [update_task(task_list)] *)
Definition update_task : io unit :=
  print (nl ++ "--- Update Task ---") ;;
  all <- call TaskList.get_all_tasks ;;
  match all with
  | [] => print "No tasks available."
  | _ :: _ =>
    line <- input "Enter task ID to update: " ;;
    let task_id_str := strip line in
    try_except_ValueError
      (task_id <- int task_id_str ;;
       found <- call (TaskList.get_task_by_id task_id) ;;
       match found with
       | None => print ("Task with ID " ++ py_str task_id ++ " not found.")
       | Some task =>
         print ("Current title: " ++ Task.title task) ;;
         line <- input "Enter new title (or press Enter to keep current): " ;;
         let new_title := strip line in
         print ("Current description: "
                ++ description_or_None (Task.description task)) ;;
         line <-
           input "Enter new description (or press Enter to keep current): " ;;
         let new_description := strip line in
         let title := if truthy new_title then Some new_title else None in
         let description :=
           if truthy new_description then Some new_description else None in
         let description :=
           if String.eqb new_description "" then None else description in
         ok <- call (TaskList.update_task task_id title description) ;;
         if ok then
           print ("Task " ++ py_str task_id ++ " updated successfully!")
         else
           print ("Failed to update task " ++ py_str task_id ++ ".")
       end)
      (print "Please enter a valid task ID (number).")
  end.

(** [s.lower()] on the code points below 256: the letters A to Z and the
    capital letters 192 to 222, the multiplication sign 215 apart, move up
    by 32. *)
Definition lower_char (c : ascii) : ascii :=
  let n := Z.of_N (N_of_ascii c) in
  if (((65 <=? n) && (n <=? 90))
      || ((192 <=? n) && (n <=? 222) && negb (n =? 215)))%Z
  then ascii_of_N (N_of_ascii c + 32)
  else c.

Fixpoint lower (s : string) : string :=
  match s with
  | "" => ""
  | String c r => String (lower_char c) (lower r)
  end.

(** [mark_task_complete(task_list)].  [task.completed] is read off the
    result of [get_task_by_id]; on [None] that is an [AttributeError], which
    [except ValueError] does not catch.  The call follows a
    [toggle_task_completion] that returned [True], so the branch is never
    taken ([toggle_then_lookup] below). *)
Definition mark_task_complete : io unit :=
  print (nl ++ "--- Mark Task Complete/Incomplete ---") ;;
  all <- call TaskList.get_all_tasks ;;
  match all with
  | [] => print "No tasks available."
  | _ :: _ =>
    line <- input "Enter task ID to toggle completion status: " ;;
    let task_id_str := strip line in
    try_except_ValueError
      (task_id <- int task_id_str ;;
       ok <- call (TaskList.toggle_task_completion task_id) ;;
       if ok then
         found <- call (TaskList.get_task_by_id task_id) ;;
         match found with
         | Some task =>
           let status :=
             if Task.completed task then "completed" else "incomplete" in
           print ("Task " ++ py_str task_id ++ " marked as " ++ status ++ "!")
         | None => raise AttributeError
         end
       else
         print ("Task with ID " ++ py_str task_id ++ " not found."))
      (print "Please enter a valid task ID (number).")
  end.

(** [confirm in ['y', 'yes']] *)
Definition affirmative (confirm : string) : bool :=
  existsb (String.eqb confirm) ["y"; "yes"].

(** [delete_task(task_list)] *)
Definition delete_task : io unit :=
  print (nl ++ "--- Delete Task ---") ;;
  all <- call TaskList.get_all_tasks ;;
  match all with
  | [] => print "No tasks available."
  | _ :: _ =>
    line <- input "Enter task ID to delete: " ;;
    let task_id_str := strip line in
    try_except_ValueError
      (task_id <- int task_id_str ;;
       found <- call (TaskList.get_task_by_id task_id) ;;
       match found with
       | None => print ("Task with ID " ++ py_str task_id ++ " not found.")
       | Some task =>
         line <-
           input ("Are you sure you want to delete task '" ++ Task.title task
                  ++ "'? (y/N): ") ;;
         let confirm := lower (strip line) in
         if affirmative confirm then
           ok <- call (TaskList.delete_task task_id) ;;
           if ok then
             print ("Task " ++ py_str task_id ++ " deleted successfully!")
           else
             print ("Failed to delete task " ++ py_str task_id ++ ".")
         else
           print "Deletion cancelled."
       end)
      (print "Please enter a valid task ID (number).")
  end.

(** The world a handler leaves behind, however it ended. *)
Definition final {A : Type} (r : result A) : world :=
  match r with
  | Return _ w => w
  | Raise _ w => w
  end.

(** How a handler may end: normally, with the store as it was or changed
    as [change] allows; or with [EOFError], standard input used up and the
    store as it was. *)
Definition ends_well (change : TaskList.t -> TaskList.t -> Prop)
    (w : world) (r : result unit) : Prop :=
  match r with
  | Return _ w' =>
      task_list w' = task_list w \/ change (task_list w) (task_list w')
  | Raise e w' =>
      e = EOFError /\ task_list w' = task_list w /\ stdin w' = []
  end.

(** ** Viewing and the main loop

    Two things the source leaves to Python are taken as given here: the two
    status marks of [Task.__str__], which are characters beyond code point
    255, and the text [str(e)] of a caught exception.  A keyboard
    interrupt, which may arrive at any moment, is not part of the model. *)
Section Screen.
Variables (check_mark circle : string) (message : exn -> string).

(** [Task.__str__] *)
Definition Task_str (task : Task.t) : string :=
  let status := if Task.completed task then check_mark else circle in
  "ID: " ++ py_str (Task.id task) ++ " | " ++ status ++ " | Title: "
  ++ Task.title task.

(** [for x in xs: body] *)
Fixpoint for_each {A : Type} (xs : list A) (body : A -> io unit) : io unit :=
  match xs with
  | [] => ret tt
  | x :: rest => body x ;; for_each rest body
  end.

(** [view_tasks(task_list)] *)
Definition view_tasks : io unit :=
  print (nl ++ "--- All Tasks ---") ;;
  tasks <- call TaskList.get_all_tasks ;;
  match tasks with
  | [] => print "No tasks found."
  | _ :: _ =>
    for_each tasks (fun task =>
      print (Task_str task) ;;
      match Task.description task with
      | Some d =>
          if truthy d then print ("     Description: " ++ d) else ret tt
      | None => ret tt
      end ;;
      print "")
  end.

(** [s * n] *)
Fixpoint str_mul (s : string) (n : nat) : string :=
  match n with
  | O => ""
  | S n' => s ++ str_mul s n'
  end.

(** [display_menu()] *)
Definition display_menu : io unit :=
  print (nl ++ str_mul "=" 40) ;;
  print "TODO APP - Main Menu" ;;
  print (str_mul "=" 40) ;;
  print "1. Add Task" ;;
  print "2. View Tasks" ;;
  print "3. Mark Task Complete/Incomplete" ;;
  print "4. Update Task" ;;
  print "5. Delete Task" ;;
  print "6. Exit" ;;
  print (str_mul "-" 40).

(** The [try] block of the loop body; the result tells whether [break] was
    reached. *)
Definition choose : io bool :=
  line <- input "Enter your choice (1-6): " ;;
  let choice := strip line in
  if String.eqb choice "1" then add_task ;; ret false
  else if String.eqb choice "2" then view_tasks ;; ret false
  else if String.eqb choice "3" then mark_task_complete ;; ret false
  else if String.eqb choice "4" then update_task ;; ret false
  else if String.eqb choice "5" then delete_task ;; ret false
  else if String.eqb choice "6" then
    print "Thank you for using the Todo App. Goodbye!" ;; ret true
  else
    print "Invalid choice. Please enter a number between 1 and 6." ;;
    ret false.

(** [try: body except Exception as e: handler(e)] *)
Definition try_except_Exception {A : Type}
    (body : io A) (handler : exn -> io A) : io A :=
  fun w =>
    match body w with
    | Raise e w' => handler e w'
    | r => r
    end.

(** One turn of [while True]. *)
Definition turn : io bool :=
  display_menu ;;
  try_except_Exception choose
    (fun e => print ("An error occurred: " ++ message e) ;; ret false).

(** The loop, for at most [fuel] turns: [None] when it is still running
    after them, otherwise how the program ended. *)
Fixpoint main_loop (fuel : nat) (w : world) : option (result unit) :=
  match fuel with
  | O => None
  | S fuel' =>
      match turn w with
      | Return true w' => Some (Return tt w')
      | Return false w' => main_loop fuel' w'
      | Raise e w' => Some (Raise e w')
      end
  end.

(** [main()], run on the lines [lines] of standard input. *)
Definition main (fuel : nat) (lines : list string) : option (result unit) :=
  match print "Welcome to the Todo App!" (World TaskList.init lines []) with
  | Return _ w => main_loop fuel w
  | Raise e w => Some (Raise e w)
  end.

(** What [view_tasks] writes for one task. *)
Definition task_lines (task : Task.t) : list string :=
  ([(Task_str task ++ nl)%string]
   ++ match Task.description task with
      | Some d =>
          if truthy d then [(("     Description: " ++ d) ++ nl)%string]
          else []
      | None => []
      end
   ++ [("" ++ nl)%string])%list.
End Screen.

(** The last thing the program writes when it is left by choice 6. *)
Definition goodbye : string :=
  "Thank you for using the Todo App. Goodbye!" ++ nl.

(** A program that takes lines off the front of standard input and does
    nothing else to it. *)
Definition consumes {A : Type} (m : io A) : Prop :=
  forall w, exists used, stdin w = (used ++ stdin (final (m w)))%list.

(** What every history satisfies: the dictionary's keys are the
    identifiers handed out that are still stored, in the order they were
    handed out; all of them are below the counter and distinct; every task
    is stored under its own identifier. *)
Definition consistent (h : history) : Prop :=
  let d := TaskList.tasks (snd h) in
  Dict.keys d = filter (fun i => Dict.contains i d) (fst h)
  /\ Forall (fun i => (i < TaskList.next_id (snd h))%Z) (fst h)
  /\ NoDup (fst h)
  /\ Forall (fun e => Task.id (snd e) = fst e) d.

(** ** Sample stores *)

(** The store after [Create("Write report", "finish by Friday")]. *)
Definition report_store : TaskList.t :=
  snd (TaskList.add_task "Write report" (Some "finish by Friday")
         TaskList.init).

Definition report_task : Task.t :=
  Task.mk 1 "Write report" (Some "finish by Friday") false.

(** * Properties *)

Local Open Scope Z_scope.

(** ** The dictionary *)
Section DictFacts.
Context {V : Type}.
Implicit Types (d : Dict.t V) (k : Z) (v : V).

Lemma dict_get_set_same k v d : Dict.get k (Dict.set k v d) = Some v.
Proof.
  induction d as [|[k' v'] r IH]; simpl.
  - now rewrite Z.eqb_refl.
  - destruct (k =? k') eqn:E; simpl; rewrite E; auto.
Qed.

Lemma dict_get_set_other k k' v d :
  k' <> k -> Dict.get k' (Dict.set k v d) = Dict.get k' d.
Proof.
  intros N. induction d as [|[k0 v0] r IH]; simpl.
  - apply Z.eqb_neq in N. now rewrite N.
  - destruct (k =? k0) eqn:E; simpl.
    + apply Z.eqb_eq in E. subst k0.
      apply Z.eqb_neq in N. now rewrite N.
    + now rewrite IH.
Qed.

Lemma dict_set_get k v d : Dict.get k d = Some v -> Dict.set k v d = d.
Proof.
  induction d as [|[k' v'] r IH]; simpl; [discriminate|].
  destruct (k =? k') eqn:E; intros H.
  - congruence.
  - now rewrite IH.
Qed.

Lemma dict_set_set k v v' d :
  Dict.set k v (Dict.set k v' d) = Dict.set k v d.
Proof.
  induction d as [|[k0 v0] r IH]; simpl.
  - now rewrite Z.eqb_refl.
  - destruct (k =? k0) eqn:E; simpl; rewrite E; congruence.
Qed.

Lemma dict_keys_set_present k v d :
  Dict.contains k d = true -> Dict.keys (Dict.set k v d) = Dict.keys d.
Proof.
  unfold Dict.contains, Dict.keys.
  induction d as [|[k0 v0] r IH]; simpl; [discriminate|].
  destruct (k =? k0) eqn:E; simpl; intros H; [reflexivity|].
  now rewrite IH.
Qed.

Lemma dict_set_absent k v d :
  Dict.contains k d = false -> Dict.set k v d = (d ++ [(k, v)])%list.
Proof.
  unfold Dict.contains.
  induction d as [|[k0 v0] r IH]; simpl; [reflexivity|].
  destruct (k =? k0) eqn:E; [discriminate|].
  intros H. now rewrite IH.
Qed.

Lemma dict_contains_keys k d :
  Dict.contains k d = true <-> In k (Dict.keys d).
Proof.
  unfold Dict.contains, Dict.keys.
  induction d as [|[k0 v0] r IH]; simpl.
  - split; [discriminate | tauto].
  - destruct (k =? k0) eqn:E.
    + apply Z.eqb_eq in E. intuition.
    + apply Z.eqb_neq in E. rewrite IH. intuition congruence.
Qed.

Lemma dict_keys_del k d :
  Dict.keys (Dict.del k d) = filter (fun i => negb (k =? i)) (Dict.keys d).
Proof.
  unfold Dict.keys, Dict.del.
  induction d as [|[k0 v0] r IH]; simpl; [reflexivity|].
  destruct (k =? k0); simpl; now rewrite IH.
Qed.

Lemma dict_get_del k k' d :
  Dict.get k' (Dict.del k d) = if k =? k' then None else Dict.get k' d.
Proof.
  unfold Dict.del.
  induction d as [|[k0 v0] r IH]; simpl.
  - now destruct (k =? k').
  - destruct (k =? k0) eqn:E; simpl.
    + apply Z.eqb_eq in E. subst k0. rewrite IH.
      rewrite (Z.eqb_sym k' k). now destruct (k =? k').
    + rewrite IH. destruct (k' =? k0) eqn:E'; [|reflexivity].
      apply Z.eqb_eq in E'. subst k0. now rewrite E.
Qed.
End DictFacts.

(** ** The store, one call at a time *)

Lemma task_eta (task : Task.t) :
  Task.mk (Task.id task) (Task.title task) (Task.description task)
    (Task.completed task) = task.
Proof. now destruct task. Qed.

Lemma task_list_eta (s : TaskList.t) :
  TaskList.mk (TaskList.tasks s) (TaskList.next_id s) = s.
Proof. now destruct s. Qed.

(** C3: for an identifier that is not in the store, [delete_task],
    [toggle_task_completion] and [update_task] return [False] and the store
    after the call, task map and counter alike, is the store before it. *)
Theorem not_found_leaves_store_unchanged (task_id : Z) (s : TaskList.t) :
  Dict.contains task_id (TaskList.tasks s) = false ->
  TaskList.delete_task task_id s = (false, s)
  /\ TaskList.toggle_task_completion task_id s = (false, s)
  /\ forall title description,
       TaskList.update_task task_id title description s = (false, s).
Proof.
  unfold Dict.contains, TaskList.delete_task,
    TaskList.toggle_task_completion, TaskList.update_task, Dict.contains.
  destruct (Dict.get task_id (TaskList.tasks s)); [discriminate|].
  intros _. repeat split.
Qed.

Lemma not_found_leaves_store_unchanged_witness :
  TaskList.delete_task 7 TaskList.init = (false, TaskList.init)
  /\ TaskList.toggle_task_completion 7 TaskList.init = (false, TaskList.init)
  /\ forall title description,
       TaskList.update_task 7 title description TaskList.init
       = (false, TaskList.init).
Proof.
  apply (not_found_leaves_store_unchanged 7 TaskList.init). reflexivity.
Defined.

(** C4: for a task that is in the store, two calls of
    [toggle_task_completion] on its identifier both succeed, the first one
    negates the completed flag and the second one brings it back; the store
    after the two calls is the store before them. *)
Theorem toggle_twice_restores (task_id : Z) (s : TaskList.t) (task : Task.t) :
  Dict.get task_id (TaskList.tasks s) = Some task ->
  let r1 := TaskList.toggle_task_completion task_id s in
  let r2 := TaskList.toggle_task_completion task_id (snd r1) in
  fst r1 = true /\ fst r2 = true
  /\ (exists task1,
        fst (TaskList.get_task_by_id task_id (snd r1)) = Some task1
        /\ Task.completed task1 = negb (Task.completed task))
  /\ (exists task2,
        fst (TaskList.get_task_by_id task_id (snd r2)) = Some task2
        /\ Task.completed task2 = Task.completed task)
  /\ snd r2 = s.
Proof.
  intros H. unfold TaskList.toggle_task_completion. rewrite H. simpl.
  rewrite dict_get_set_same. simpl. rewrite dict_set_set.
  unfold Task.set_completed. simpl. rewrite negb_involutive.
  rewrite task_eta, (dict_set_get _ _ _ H), task_list_eta.
  repeat split.
  - eexists. split; [reflexivity | reflexivity].
  - exists task. split; [exact H | reflexivity].
Qed.

Lemma toggle_twice_restores_witness :
  snd (TaskList.toggle_task_completion 1
         (snd (TaskList.toggle_task_completion 1 report_store)))
  = report_store.
Proof.
  apply (toggle_twice_restores 1 report_store report_task). reflexivity.
Defined.

(** C5: for a task that is in the store, [update_task] with a title only
    replaces the title and leaves description and completed flag as they
    were; with a description only it replaces the description and leaves
    title and completed flag as they were. *)
Theorem update_one_field_leaves_the_others
    (task_id : Z) (s : TaskList.t) (task : Task.t) (x : string) :
  Dict.get task_id (TaskList.tasks s) = Some task ->
  (let r := TaskList.update_task task_id (Some x) None s in
   fst r = true
   /\ exists task',
        fst (TaskList.get_task_by_id task_id (snd r)) = Some task'
        /\ Task.title task' = x
        /\ Task.description task' = Task.description task
        /\ Task.completed task' = Task.completed task)
  /\ (let r := TaskList.update_task task_id None (Some x) s in
      fst r = true
      /\ exists task',
           fst (TaskList.get_task_by_id task_id (snd r)) = Some task'
           /\ Task.title task' = Task.title task
           /\ Task.description task' = Some x
           /\ Task.completed task' = Task.completed task).
Proof.
  intros H. unfold TaskList.update_task. rewrite H. simpl.
  rewrite !dict_get_set_same.
  split; (split; [reflexivity | eexists; split; [reflexivity | now simpl]]).
Qed.

Lemma update_one_field_leaves_the_others_witness :
  (exists task',
     fst (TaskList.get_task_by_id 1
            (snd (TaskList.update_task 1 (Some "Write memo") None
                    report_store))) = Some task'
     /\ Task.title task' = "Write memo"
     /\ Task.description task' = Some "finish by Friday"
     /\ Task.completed task' = false)
  /\ (exists task',
        fst (TaskList.get_task_by_id 1
               (snd (TaskList.update_task 1 None (Some "Write memo")
                       report_store))) = Some task'
        /\ Task.title task' = "Write report"
        /\ Task.description task' = Some "Write memo"
        /\ Task.completed task' = false).
Proof.
  destruct (update_one_field_leaves_the_others 1 report_store report_task
              "Write memo" eq_refl) as [[_ A] [_ B]].
  split; [exact A | exact B].
Defined.

(** C6: [add_task] with a non-empty title returns a task whose identifier
    is the counter before the call, whose completed flag is false and whose
    title and description are the arguments; after the call that task is
    stored under its identifier, every other identifier maps to what it
    mapped to before, and the counter is one more. *)
Theorem add_task_creates
    (title : string) (description : option string) (s : TaskList.t) :
  title <> ""%string ->
  let r := TaskList.add_task title description s in
  fst r = Task.mk (TaskList.next_id s) title description false
  /\ TaskList.next_id (snd r) = TaskList.next_id s + 1
  /\ fst (TaskList.get_task_by_id (TaskList.next_id s) (snd r)) = Some (fst r)
  /\ (forall k, k <> TaskList.next_id s ->
        fst (TaskList.get_task_by_id k (snd r))
        = fst (TaskList.get_task_by_id k s))
  /\ (Dict.contains (TaskList.next_id s) (TaskList.tasks s) = false ->
      TaskList.tasks (snd r)
      = (TaskList.tasks s ++ [(TaskList.next_id s, fst r)])%list).
Proof.
  intros _. simpl. repeat split.
  - apply dict_get_set_same.
  - intros k N. now apply dict_get_set_other.
  - apply dict_set_absent.
Qed.

Lemma add_task_creates_witness :
  fst (TaskList.add_task "Buy milk" None report_store)
  = Task.mk 2 "Buy milk" None false
  /\ TaskList.next_id (snd (TaskList.add_task "Buy milk" None report_store))
     = 3.
Proof.
  destruct (add_task_creates "Buy milk" None report_store)
    as (A & B & _); [discriminate|].
  split; [exact A | exact B].
Defined.

(** C8: [update_task] never turns a present description into an absent
    one: whatever the arguments, a task of the store whose description is
    not [None] before the call is still in the store after it with a
    description that is not [None]. *)
Theorem update_task_keeps_description_present
    (task_id : Z) (title description : option string) (s : TaskList.t)
    (k : Z) (task : Task.t) (d : string) :
  Dict.get k (TaskList.tasks s) = Some task ->
  Task.description task = Some d ->
  exists task',
    Dict.get k
      (TaskList.tasks (snd (TaskList.update_task task_id title description s)))
    = Some task'
    /\ Task.description task' <> None.
Proof.
  intros H D. unfold TaskList.update_task.
  destruct (Dict.get task_id (TaskList.tasks s)) as [task0|] eqn:G; simpl.
  - destruct (Z.eq_dec k task_id) as [->|N].
    + rewrite dict_get_set_same. eexists. split; [reflexivity|].
      assert (task0 = task) by congruence. subst task0.
      destruct description, title; simpl; congruence.
    + rewrite dict_get_set_other by exact N.
      exists task. split; [exact H | congruence].
  - exists task. split; [exact H | congruence].
Qed.

Lemma update_task_keeps_description_present_witness :
  exists task',
    Dict.get 1
      (TaskList.tasks (snd (TaskList.update_task 1 (Some "x") None
                              report_store)))
    = Some task'
    /\ Task.description task' <> None.
Proof.
  apply (update_task_keeps_description_present 1 (Some "x"%string) None
           report_store 1 report_task "finish by Friday"); reflexivity.
Defined.

(** C10: for an identifier that is in the store, [update_task] with title
    and description both [None] returns [True] and the store after the call
    is the store before it, so the task's title, description and completed
    flag are what they were. *)
Theorem update_task_without_fields
    (task_id : Z) (s : TaskList.t) (task : Task.t) :
  Dict.get task_id (TaskList.tasks s) = Some task ->
  TaskList.update_task task_id None None s = (true, s)
  /\ fst (TaskList.get_task_by_id task_id
            (snd (TaskList.update_task task_id None None s))) = Some task.
Proof.
  intros H. unfold TaskList.update_task. rewrite H. simpl.
  rewrite (dict_set_get _ _ _ H), task_list_eta. now split.
Qed.

Lemma update_task_without_fields_witness :
  TaskList.update_task 1 None None report_store = (true, report_store)
  /\ fst (TaskList.get_task_by_id 1
            (snd (TaskList.update_task 1 None None report_store)))
     = Some report_task.
Proof.
  apply (update_task_without_fields 1 report_store report_task). reflexivity.
Defined.

(** ** The store over a lifetime *)

Lemma count_from_snoc (first : Z) (n : nat) :
  count_from first (S n)
  = (count_from first n ++ [first + Z.of_nat n])%list.
Proof.
  revert first. induction n as [|n IH]; intros first.
  - simpl. now rewrite Z.add_0_r.
  - change (count_from first (S (S n)))
      with (first :: count_from (first + 1) (S n)).
    rewrite IH. simpl. do 3 f_equal. lia.
Qed.

Lemma count_from_In (first : Z) (n : nat) (k : Z) :
  In k (count_from first n) <-> first <= k < first + Z.of_nat n.
Proof.
  revert first. induction n as [|n IH]; intros first.
  - simpl. lia.
  - simpl count_from. simpl In. rewrite IH. lia.
Qed.

Lemma count_from_NoDup (first : Z) (n : nat) : NoDup (count_from first n).
Proof.
  revert first. induction n as [|n IH]; intros first; simpl.
  - constructor.
  - constructor; [|apply IH]. rewrite count_from_In. lia.
Qed.

Lemma count_from_sorted (first : Z) (n : nat) :
  StronglySorted Z.lt (count_from first n).
Proof.
  revert first. induction n as [|n IH]; intros first; simpl.
  - constructor.
  - constructor; [apply IH|].
    apply Forall_forall. intros k H. apply count_from_In in H. lia.
Qed.

Lemma creations_snoc (ops : list op) (o : op) :
  creations (ops ++ [o])
  = (creations ops + match o with Add _ _ => 1 | _ => 0 end)%nat.
Proof.
  unfold creations. rewrite filter_app, length_app.
  now destruct o.
Qed.

Lemma exec_snoc (ops : list op) (o : op) :
  exec (ops ++ [o]) = record (exec ops) o.
Proof. unfold exec, exec_from. now rewrite fold_left_app. Qed.

(** Only [add_task] moves the counter. *)
Lemma step_next_id (o : op) (s : TaskList.t) :
  TaskList.next_id (snd (step o s))
  = TaskList.next_id s + match o with Add _ _ => 1 | _ => 0 end.
Proof.
  destruct o as [title description|task_id title description|task_id|task_id];
    simpl.
  - reflexivity.
  - unfold TaskList.update_task.
    destruct (Dict.get task_id (TaskList.tasks s)); simpl; lia.
  - unfold TaskList.delete_task.
    destruct (Dict.contains task_id (TaskList.tasks s)); simpl; lia.
  - unfold TaskList.toggle_task_completion.
    destruct (Dict.get task_id (TaskList.tasks s)); simpl; lia.
Qed.

Lemma step_created (o : op) (s : TaskList.t) :
  fst (step o s)
  = match o with Add _ _ => Some (TaskList.next_id s) | _ => None end.
Proof. now destruct o. Qed.

(** The identifiers handed out are 1, 2, ... and the counter is the next
    one. *)
Lemma exec_ids (ops : list op) :
  fst (exec ops) = count_from 1 (creations ops)
  /\ TaskList.next_id (snd (exec ops)) = 1 + Z.of_nat (creations ops).
Proof.
  induction ops as [|o ops [IHi IHn]] using rev_ind.
  - now split.
  - rewrite exec_snoc, creations_snoc. unfold record.
    pose proof (step_next_id o (snd (exec ops))) as N.
    pose proof (step_created o (snd (exec ops))) as C.
    destruct (step o (snd (exec ops))) as [created s'].
    cbn [fst snd] in N, C. subst created. cbn [fst snd]. rewrite N, IHn, IHi.
    destruct o; split;
      rewrite ?Nat.add_0_r, ?Nat.add_1_r, ?count_from_snoc; auto; lia.
Qed.

(** C2: over any sequence of creations, updates, deletions and toggles
    from the empty store, the identifiers handed out are 1, 2, ..., N in
    creation order (N the number of creations) and so pairwise distinct;
    and whatever was deleted, the next creation receives the counter value
    N + 1, which was handed out to no task before. *)
Theorem identifiers_never_reused (ops : list op) :
  let h := exec ops in
  fst h = count_from 1 (creations ops)
  /\ NoDup (fst h)
  /\ forall title description,
       let task := fst (TaskList.add_task title description (snd h)) in
       Task.id task = 1 + Z.of_nat (creations ops)
       /\ ~ In (Task.id task) (fst h).
Proof.
  destruct (exec_ids ops) as [I N]. simpl. rewrite I, N.
  split; [reflexivity|]. split; [apply count_from_NoDup|].
  intros _ _. split; [reflexivity|]. rewrite count_from_In. lia.
Qed.

Lemma identifiers_never_reused_witness :
  fst (exec [Add "A" None; Add "B" None; Delete 1]) = [1; 2]
  /\ forall title description,
       Task.id
         (fst (TaskList.add_task title description
                 (snd (exec [Add "A" None; Add "B" None; Delete 1]))))
       = 3.
Proof.
  destruct (identifiers_never_reused [Add "A" None; Add "B" None; Delete 1])
    as (A & _ & B).
  split; [exact A|]. intros title description.
  exact (proj1 (B title description)).
Defined.

Section DictMoreFacts.
Context {V : Type}.
Implicit Types (d : Dict.t V) (k : Z) (v : V).

Lemma dict_contains_set k i v d :
  Dict.contains i (Dict.set k v d) = (i =? k) || Dict.contains i d.
Proof.
  unfold Dict.contains. destruct (i =? k) eqn:E.
  - apply Z.eqb_eq in E. subst i. now rewrite dict_get_set_same.
  - apply Z.eqb_neq in E. now rewrite dict_get_set_other.
Qed.

Lemma dict_contains_del k i d :
  Dict.contains i (Dict.del k d) = negb (k =? i) && Dict.contains i d.
Proof.
  unfold Dict.contains. rewrite dict_get_del. now destruct (k =? i).
Qed.

Lemma dict_get_In k v d : Dict.get k d = Some v -> In (k, v) d.
Proof.
  induction d as [|[k' v'] r IH]; simpl; [discriminate|].
  destruct (k =? k') eqn:E.
  - apply Z.eqb_eq in E. intros H. left. congruence.
  - auto.
Qed.

Lemma dict_In_get k v d :
  NoDup (Dict.keys d) -> In (k, v) d -> Dict.get k d = Some v.
Proof.
  unfold Dict.keys.
  induction d as [|[k' v'] r IH]; simpl; [tauto|].
  intros N [H|H].
  - inversion H. subst. now rewrite Z.eqb_refl.
  - inversion N as [|? ? Hn N']. subst.
    destruct (k =? k') eqn:E; [|auto].
    apply Z.eqb_eq in E. subst k'. exfalso. apply Hn.
    change k with (fst (k, v)). now apply in_map.
Qed.

Lemma dict_Forall_set (P : Z * V -> Prop) k v d :
  Forall P d -> P (k, v) -> Forall P (Dict.set k v d).
Proof.
  intros F H. induction F as [|[k' v'] r Hx F IH]; simpl.
  - auto.
  - destruct (k =? k') eqn:E.
    + apply Z.eqb_eq in E. subst k'. auto.
    + auto.
Qed.

Lemma dict_Forall_del (P : Z * V -> Prop) k d :
  Forall P d -> Forall P (Dict.del k d).
Proof.
  unfold Dict.del. rewrite !Forall_forall. intros F e H.
  apply filter_In in H. now apply F.
Qed.
End DictMoreFacts.

Lemma filter_twice {A : Type} (f g : A -> bool) (l : list A) :
  filter f (filter g l) = filter (fun x => f x && g x) l.
Proof.
  induction l as [|a l IH]; simpl; [reflexivity|].
  destruct (g a); simpl; rewrite ?andb_true_r, ?andb_false_r.
  - destruct (f a); now rewrite IH.
  - exact IH.
Qed.

Lemma consistent_init : consistent ([], TaskList.init).
Proof. repeat split; constructor. Qed.

(** Writing to the task stored under [k] keeps a history consistent. *)
Lemma consistent_overwrite
    (ids : list Z) (d : Dict.t Task.t) (n k : Z) (old new : Task.t) :
  consistent (ids, TaskList.mk d n) ->
  Dict.get k d = Some old ->
  Task.id new = Task.id old ->
  consistent (ids, TaskList.mk (Dict.set k new d) n).
Proof.
  unfold consistent. cbn [fst snd TaskList.tasks TaskList.next_id].
  intros (K & B & N & F) G I.
  assert (C : Dict.contains k d = true) by (unfold Dict.contains; now rewrite G).
  repeat split; auto.
  - rewrite dict_keys_set_present by exact C. rewrite K.
    apply filter_ext. intros i. rewrite dict_contains_set.
    destruct (i =? k) eqn:E; [|reflexivity].
    apply Z.eqb_eq in E. now subst i.
  - apply dict_Forall_set; [exact F|].
    rewrite Forall_forall in F. cbn [fst snd]. rewrite I.
    exact (F _ (dict_get_In _ _ _ G)).
Qed.

Lemma record_consistent (h : history) (o : op) :
  consistent h -> consistent (record h o).
Proof.
  destruct h as [ids [d n]]. intros H.
  destruct o as [title description|task_id title description|task_id|task_id];
    unfold record, step; cbn [fst snd].
  - (* add_task *)
    unfold TaskList.add_task. cbn [fst snd TaskList.tasks TaskList.next_id].
    destruct H as (K & B & N & F).
    cbn [fst snd TaskList.tasks TaskList.next_id] in K, B, N, F.
    assert (Fresh : ~ In n ids).
    { intros I. rewrite Forall_forall in B. specialize (B _ I). lia. }
    assert (C : Dict.contains n d = false).
    { destruct (Dict.contains n d) eqn:E; [|reflexivity].
      apply dict_contains_keys in E. rewrite K in E.
      apply filter_In in E. tauto. }
    unfold consistent. cbn [fst snd TaskList.tasks TaskList.next_id].
    repeat split.
    + rewrite filter_app. simpl.
      rewrite (dict_contains_set n n), Z.eqb_refl. simpl.
      rewrite (filter_ext_in _ (fun i => Dict.contains i d)).
      * rewrite dict_set_absent by exact C.
        unfold Dict.keys in *. now rewrite map_app, K.
      * intros i I. rewrite dict_contains_set.
        destruct (i =? n) eqn:E; [|reflexivity].
        apply Z.eqb_eq in E. subst i. tauto.
    + apply Forall_app. split.
      * eapply Forall_impl; [|exact B]. cbn beta. intros. lia.
      * constructor; [cbn [Task.id Task.init]; lia | constructor].
    + apply NoDup_app; [exact N | repeat constructor; simpl; tauto |].
      intros i I [<-|[]]. tauto.
    + apply dict_Forall_set; [exact F | reflexivity].
  - (* update_task *)
    unfold TaskList.update_task. cbn [TaskList.tasks TaskList.next_id].
    destruct (Dict.get task_id d) as [old|] eqn:G; cbn [snd]; [|exact H].
    eapply consistent_overwrite; eauto.
    now destruct title, description.
  - (* delete_task *)
    unfold TaskList.delete_task. cbn [TaskList.tasks TaskList.next_id].
    destruct (Dict.contains task_id d) eqn:C; cbn [negb snd]; [|exact H].
    destruct H as (K & B & N & F).
    cbn [fst snd TaskList.tasks TaskList.next_id] in K, B, N, F.
    unfold consistent. cbn [fst snd TaskList.tasks TaskList.next_id].
    repeat split; auto.
    + rewrite dict_keys_del, K, filter_twice.
      apply filter_ext. intros i. now rewrite dict_contains_del.
    + now apply dict_Forall_del.
  - (* toggle_task_completion *)
    unfold TaskList.toggle_task_completion.
    cbn [TaskList.tasks TaskList.next_id].
    destruct (Dict.get task_id d) as [old|] eqn:G; cbn [snd]; [|exact H].
    eapply consistent_overwrite; eauto.
Qed.

Lemma exec_consistent (ops : list op) : consistent (exec ops).
Proof.
  induction ops as [|o ops IH] using rev_ind.
  - exact consistent_init.
  - rewrite exec_snoc. now apply record_consistent.
Qed.

Lemma filter_sorted (f : Z -> bool) (l : list Z) :
  StronglySorted Z.lt l -> StronglySorted Z.lt (filter f l).
Proof.
  induction 1 as [|a l S IH F]; simpl; [constructor|].
  destruct (f a); [|exact IH].
  constructor; [exact IH|].
  rewrite Forall_forall in *. intros x H. apply filter_In in H. now apply F.
Qed.

Lemma values_ids (d : Dict.t Task.t) :
  Forall (fun e => Task.id (snd e) = fst e) d ->
  map Task.id (Dict.values d) = Dict.keys d.
Proof.
  unfold Dict.values, Dict.keys.
  induction 1 as [|e r H F IH]; simpl; congruence.
Qed.

(** C7: after any sequence of store operations from the empty store,
    [get_all_tasks] returns the tasks whose identifiers are, in this order,
    the identifiers 1, 2, ..., N handed out so far that are still stored:
    creation order, whatever was deleted in between, hence ascending
    identifiers.  A task is in the result exactly when the store holds it.
    An empty store gives the empty list, and the store after the call is
    the store before it. *)
Theorem get_all_tasks_in_creation_order (ops : list op) :
  let s := snd (exec ops) in
  let listed := fst (TaskList.get_all_tasks s) in
  map Task.id listed
  = filter (fun i => Dict.contains i (TaskList.tasks s))
      (count_from 1 (creations ops))
  /\ StronglySorted Z.lt (map Task.id listed)
  /\ (forall task,
        In task listed
        <-> fst (TaskList.get_task_by_id (Task.id task) s) = Some task)
  /\ (TaskList.tasks s = [] -> listed = [])
  /\ snd (TaskList.get_all_tasks s) = s.
Proof.
  destruct (exec_consistent ops) as (K & _ & N & F).
  destruct (exec_ids ops) as [I _].
  cbn zeta. unfold TaskList.get_all_tasks, TaskList.get_task_by_id.
  cbn [fst snd]. rewrite I in K, N.
  set (d := TaskList.tasks (snd (exec ops))) in *.
  rewrite (values_ids d F), K.
  split; [reflexivity|].
  split; [apply filter_sorted, count_from_sorted|].
  split; [|split; [now intros ->|reflexivity]].
  intros task. unfold Dict.values. split.
  - intros H. apply in_map_iff in H. destruct H as ([k t] & E & H).
    simpl in E. subst t.
    rewrite Forall_forall in F. pose proof (F _ H) as Hid.
    cbn [fst snd] in Hid. rewrite Hid.
    apply dict_In_get; [|exact H].
    rewrite K. now apply NoDup_filter.
  - intros H. apply dict_get_In in H.
    change task with (snd (Task.id task, task)). now apply in_map.
Qed.

Lemma get_all_tasks_in_creation_order_witness :
  map Task.id
    (fst (TaskList.get_all_tasks
       (snd (exec [Add "A" None; Add "B" None; Delete 1; Add "C" None]))))
  = [2; 3].
Proof.
  exact (proj1 (get_all_tasks_in_creation_order
                  [Add "A" None; Add "B" None; Delete 1; Add "C" None])).
Defined.

(** The scenario of the specification: listing after adding "Buy milk" and
    deleting it again gives no entry. *)
Example list_after_add_and_delete :
  fst (TaskList.get_all_tasks (snd (exec [Add "Buy milk" None; Delete 1])))
  = [].
Proof. reflexivity. Qed.

(** The scenario of the specification: the third task created gets
    identifier 3 although identifier 1 is free again. *)
Example no_reuse_after_delete :
  fst (exec [Add "A" None; Add "B" None; Delete 1; Add "C" None]) = [1; 2; 3]
  /\ map Task.id
       (fst (TaskList.get_all_tasks
          (snd (exec [Add "A" None; Add "B" None; Delete 1; Add "C" None]))))
     = [2; 3].
Proof. split; reflexivity. Qed.

(** ** The handlers *)

Local Open Scope string_scope.

Lemma truthy_false (x : string) : truthy x = false <-> x = "".
Proof. destruct x; simpl; split; congruence. Qed.

(** C9: [TaskList.add_task] accepts every title, the empty one included:
    the call stores a task with that title under the counter's value and
    increments the counter.  The Add handler is where a blank title stops:
    when the line read for the title is empty after stripping, the handler
    returns with the store untouched, having read that one line only. *)
Theorem title_is_validated_by_the_handler_only
    (title : string) (description : option string) (s : TaskList.t)
    (w : world) (line : string) (rest : list string) :
  stdin w = line :: rest ->
  strip line = "" ->
  (let r := TaskList.add_task title description s in
   Task.title (fst r) = title
   /\ fst (TaskList.get_task_by_id (TaskList.next_id s) (snd r)) = Some (fst r)
   /\ TaskList.next_id (snd r) = (TaskList.next_id s + 1)%Z)
  /\ exists out, add_task w = Return tt (World (task_list w) rest out).
Proof.
  intros I B. split.
  - simpl. repeat split. apply dict_get_set_same.
  - destruct w as [s0 inp out]. simpl in I. subst inp.
    unfold add_task, bind, print, input. cbn [stdin stdout task_list].
    rewrite B. cbn [truthy negb]. eexists. reflexivity.
Qed.

Lemma title_is_validated_by_the_handler_only_witness :
  (let r := TaskList.add_task "" None TaskList.init in
   Task.title (fst r) = ""
   /\ fst (TaskList.get_task_by_id 1 (snd r)) = Some (fst r)
   /\ TaskList.next_id (snd r) = 2%Z)
  /\ exists out,
       add_task (World TaskList.init ["   "; "later"] [])
       = Return tt (World TaskList.init ["later"] out).
Proof.
  apply (title_is_validated_by_the_handler_only "" None TaskList.init
           (World TaskList.init ["   "; "later"] []) "   " ["later"]);
    reflexivity.
Defined.

(** When the title line is not blank the handler does call [add_task],
    with the stripped title, and a blank description line becomes [None]. *)
Lemma add_task_handler_creates
    (w : world) (line1 line2 : string) (rest : list string) :
  stdin w = line1 :: line2 :: rest ->
  strip line1 <> "" ->
  exists out,
    add_task w
    = Return tt
        (World
           (snd (TaskList.add_task (strip line1)
                   (if truthy (strip line2) then Some (strip line2) else None)
                   (task_list w)))
           rest out).
Proof.
  intros I B. destruct w as [s0 inp out]. simpl in I. subst inp.
  unfold add_task, bind, print, input, call. cbn [stdin stdout task_list].
  destruct (truthy (strip line1)) eqn:T.
  - cbn [negb stdin stdout task_list].
    destruct (truthy (strip line2)); cbn [negb];
      unfold TaskList.add_task; cbn [stdin stdout task_list snd];
      eexists; reflexivity.
  - apply truthy_false in T. contradiction.
Qed.

Lemma values_nonempty (d : Dict.t Task.t) (k : Z) (task : Task.t) :
  Dict.get k d = Some task -> exists t l, Dict.values d = t :: l.
Proof.
  destruct d as [|[k' t] r]; simpl; [discriminate|].
  intros _. now exists t, (Dict.values r).
Qed.

(** What the Update handler does once the identifier line names a stored
    task: it reads two more lines and calls [update_task] with the stripped
    title line, or [None] when that is empty, and with the stripped
    description line, or [None] when that is empty. *)
Lemma update_task_handler_found
    (w : world) (id_line title_line description_line : string)
    (rest : list string) (task_id : Z) (task : Task.t) :
  stdin w = id_line :: title_line :: description_line :: rest ->
  py_int (strip id_line) = Some task_id ->
  Dict.get task_id (TaskList.tasks (task_list w)) = Some task ->
  let title :=
    if truthy (strip title_line) then Some (strip title_line) else None in
  let description :=
    if truthy (strip description_line)
    then Some (strip description_line) else None in
  exists out,
    update_task w
    = Return tt
        (World
           (snd (TaskList.update_task task_id title description (task_list w)))
           rest out).
Proof.
  intros I P G. destruct w as [s inp out]. cbn [stdin task_list] in *.
  subst inp.
  destruct (values_nonempty _ _ _ G) as (t0 & l0 & NE).
  unfold update_task, bind, print, call, input, try_except_ValueError, int,
    TaskList.get_all_tasks, TaskList.get_task_by_id.
  cbn [stdin stdout task_list fst snd]. rewrite NE.
  cbn [stdin stdout task_list fst snd]. rewrite P. unfold ret.
  cbn [stdin stdout task_list fst snd]. rewrite G.
  cbn [stdin stdout task_list fst snd].
  assert (D : (if String.eqb (strip description_line) ""
               then None
               else if truthy (strip description_line)
                    then Some (strip description_line) else None)
              = (if truthy (strip description_line)
                 then Some (strip description_line) else None)).
  { now destruct (strip description_line). }
  rewrite D. unfold TaskList.update_task. rewrite G.
  cbn [stdin stdout task_list fst snd].
  eexists. reflexivity.
Qed.

(** What the Update handler does to the task it is given: the title
    becomes the stripped title line unless that is empty, the description
    becomes the stripped description line unless that is empty, and an
    empty one leaves the field as it was; identifier and completed flag
    stay. *)
Lemma update_handler_fields
    (w : world) (id_line title_line description_line : string)
    (rest : list string) (task_id : Z) (task : Task.t) :
  stdin w = id_line :: title_line :: description_line :: rest ->
  py_int (strip id_line) = Some task_id ->
  Dict.get task_id (TaskList.tasks (task_list w)) = Some task ->
  exists w',
    update_task w = Return tt w'
    /\ stdin w' = rest
    /\ Dict.get task_id (TaskList.tasks (task_list w'))
       = Some
           (Task.mk (Task.id task)
              (if truthy (strip title_line)
               then strip title_line else Task.title task)
              (if truthy (strip description_line)
               then Some (strip description_line)
               else Task.description task)
              (Task.completed task)).
Proof.
  intros I P G.
  destruct (update_task_handler_found w _ title_line description_line
              _ _ _ I P G) as [out E].
  unfold TaskList.update_task in E. rewrite G in E. cbn [snd] in E.
  eexists. split; [exact E|]. cbn [stdin task_list TaskList.tasks].
  split; [reflexivity|]. rewrite dict_get_set_same. f_equal.
  destruct (truthy (strip title_line)),
    (truthy (strip description_line)); cbn; now rewrite ?task_eta.
Qed.

(** C1 at a failing input: task 1 has the description "finish by Friday"
    and the Update handler is given its identifier, a blank title line and
    a blank description line.  The handler reports success and the store is
    what it was.  So the title is kept, as the claim says; the description,
    which the claim wants cleared and which the handler's last assignment
    sets out to clear, is still "finish by Friday" and not [None]: [None]
    is what reaches [TaskList.update_task], and there it means "keep". *)
Lemma update_handler_blank_description_not_cleared :
  let w := World report_store ["1"; ""; "  "] [] in
  Dict.get 1 (TaskList.tasks (task_list w)) = Some report_task
  /\ strip "  " = ""
  /\ (exists out,
        update_task w = Return tt (World report_store [] out))
  /\ Task.description report_task = Some "finish by Friday"
  /\ ~ (exists w' task',
          update_task w = Return tt w'
          /\ Dict.get 1 (TaskList.tasks (task_list w')) = Some task'
          /\ Task.description task' = None).
Proof.
  cbn zeta. split; [reflexivity|]. split; [reflexivity|].
  split; [eexists; cbv; reflexivity|]. split; [reflexivity|].
  intros (w' & task' & E & G & D).
  vm_compute in E. inversion E. subst w'.
  vm_compute in G. inversion G. subst task'. discriminate.
Qed.

(** * Further properties of the store *)

Local Open Scope Z_scope.

Section DictOrderFacts.
Context {V : Type}.
Implicit Types (d : Dict.t V) (k : Z) (v : V).

Lemma dict_del_absent k d : Dict.contains k d = false -> Dict.del k d = d.
Proof.
  unfold Dict.contains, Dict.del.
  induction d as [|[k' v'] r IH]; simpl; [reflexivity|].
  destruct (k =? k'); [discriminate|]. simpl. intros H. now rewrite IH.
Qed.

Lemma dict_del_set_absent k v d :
  Dict.contains k d = false -> Dict.del k (Dict.set k v d) = d.
Proof.
  intros H. rewrite dict_set_absent by exact H.
  unfold Dict.del. rewrite filter_app. simpl. rewrite Z.eqb_refl. simpl.
  rewrite app_nil_r. now apply dict_del_absent.
Qed.

Lemma dict_set_comm k1 k2 v1 v2 d :
  k1 <> k2 ->
  Dict.contains k1 d = true ->
  Dict.contains k2 d = true ->
  Dict.set k1 v1 (Dict.set k2 v2 d) = Dict.set k2 v2 (Dict.set k1 v1 d).
Proof.
  unfold Dict.contains. intros N.
  induction d as [|[k0 v0] r IH]; simpl; [discriminate|].
  destruct (k1 =? k0) eqn:E1, (k2 =? k0) eqn:E2; simpl;
    rewrite ?E1, ?E2; try reflexivity.
  - apply Z.eqb_eq in E1, E2. congruence.
  - intros H1 H2. now rewrite IH.
Qed.
End DictOrderFacts.

(** [delete_task] on a stored identifier returns [True]; afterwards that
    identifier is not found, every other identifier finds the task it found
    before, the remaining keys keep their order and the counter is what it
    was. *)
Theorem delete_task_removes_one
    (task_id : Z) (s : TaskList.t) (task : Task.t) :
  Dict.get task_id (TaskList.tasks s) = Some task ->
  let r := TaskList.delete_task task_id s in
  fst r = true
  /\ fst (TaskList.get_task_by_id task_id (snd r)) = None
  /\ (forall k, k <> task_id ->
        fst (TaskList.get_task_by_id k (snd r))
        = fst (TaskList.get_task_by_id k s))
  /\ Dict.keys (TaskList.tasks (snd r))
     = filter (fun k => negb (task_id =? k)) (Dict.keys (TaskList.tasks s))
  /\ TaskList.next_id (snd r) = TaskList.next_id s.
Proof.
  intros H. unfold TaskList.delete_task, Dict.contains. rewrite H.
  cbn [negb fst snd TaskList.get_task_by_id TaskList.tasks TaskList.next_id].
  split; [reflexivity|]. split.
  - rewrite dict_get_del. now rewrite Z.eqb_refl.
  - split; [|split; [apply dict_keys_del | reflexivity]].
    intros k N. rewrite dict_get_del.
    destruct (task_id =? k) eqn:E; [|reflexivity].
    apply Z.eqb_eq in E. congruence.
Qed.

Lemma delete_task_removes_one_witness :
  fst (TaskList.delete_task 1 report_store) = true
  /\ fst (TaskList.get_task_by_id 1 (snd (TaskList.delete_task 1 report_store)))
     = None.
Proof.
  destruct (delete_task_removes_one 1 report_store report_task eq_refl)
    as (A & B & _).
  split; [exact A | exact B].
Defined.

(** [update_task] and [toggle_task_completion] touch one task only and
    never its identifier: whatever the arguments, the counter and the order
    of the keys are as before, every other identifier finds the task it
    found before, and the task addressed, when there is one, is still there
    with the same [id]. *)
Theorem update_and_toggle_touch_one_task
    (task_id : Z) (title description : option string) (s : TaskList.t)
    (k : Z) :
  k <> task_id ->
  let u := snd (TaskList.update_task task_id title description s) in
  let g := snd (TaskList.toggle_task_completion task_id s) in
  TaskList.next_id u = TaskList.next_id s
  /\ TaskList.next_id g = TaskList.next_id s
  /\ Dict.keys (TaskList.tasks u) = Dict.keys (TaskList.tasks s)
  /\ Dict.keys (TaskList.tasks g) = Dict.keys (TaskList.tasks s)
  /\ Dict.get k (TaskList.tasks u) = Dict.get k (TaskList.tasks s)
  /\ Dict.get k (TaskList.tasks g) = Dict.get k (TaskList.tasks s)
  /\ (forall task, Dict.get task_id (TaskList.tasks s) = Some task ->
        exists tu tg,
          Dict.get task_id (TaskList.tasks u) = Some tu
          /\ Dict.get task_id (TaskList.tasks g) = Some tg
          /\ Task.id tu = Task.id task /\ Task.id tg = Task.id task).
Proof.
  intros N. unfold TaskList.update_task, TaskList.toggle_task_completion.
  destruct (Dict.get task_id (TaskList.tasks s)) as [task|] eqn:G;
    cbn [snd TaskList.tasks TaskList.next_id].
  - assert (C : Dict.contains task_id (TaskList.tasks s) = true)
      by (unfold Dict.contains; now rewrite G).
    rewrite !dict_keys_set_present by exact C.
    rewrite !dict_get_set_other by exact N.
    repeat (split; [reflexivity|]).
    intros task' E. injection E as <-.
    rewrite !dict_get_set_same. do 2 eexists.
    split; [reflexivity|]. split; [reflexivity|].
    split; [now destruct title, description | reflexivity].
  - repeat (split; [reflexivity|]). discriminate.
Qed.

Lemma update_and_toggle_touch_one_task_witness :
  Dict.keys
    (TaskList.tasks (snd (TaskList.update_task 2 (Some "B2") None
       (snd (exec [Add "A" None; Add "B" None])))))
  = [1; 2]
  /\ Dict.get 1
       (TaskList.tasks (snd (TaskList.toggle_task_completion 2
          (snd (exec [Add "A" None; Add "B" None])))))
     = Some (Task.mk 1 "A" None false).
Proof.
  destruct (update_and_toggle_touch_one_task 2 (Some "B2"%string) None
              (snd (exec [Add "A"%string None; Add "B"%string None])) 1)
    as (_ & _ & A & _ & _ & B & _); [discriminate|].
  split; [exact A | exact B].
Defined.

Lemma count_from_length (first : Z) (n : nat) :
  List.length (count_from first n) = n.
Proof.
  revert first. induction n as [|n IH]; intros first; simpl; [|rewrite IH];
    reflexivity.
Qed.

(** In every store that a sequence of calls from the empty store leads to,
    the keys are pairwise distinct, every task is stored under its own [id],
    every identifier in use lies between 1 and the counter (the counter
    itself is free), and no more tasks are stored than were created. *)
Theorem reachable_store_is_well_formed (ops : list op) :
  let s := snd (exec ops) in
  NoDup (Dict.keys (TaskList.tasks s))
  /\ (forall k task,
        Dict.get k (TaskList.tasks s) = Some task ->
        Task.id task = k /\ 1 <= k < TaskList.next_id s)
  /\ Dict.contains (TaskList.next_id s) (TaskList.tasks s) = false
  /\ (List.length (TaskList.tasks s) <= creations ops)%nat.
Proof.
  destruct (exec_consistent ops) as (K & _ & N & F).
  destruct (exec_ids ops) as [I C].
  cbn zeta. rewrite I in K, N.
  set (s := snd (exec ops)) in *. set (d := TaskList.tasks s) in *.
  assert (R : forall k, In k (Dict.keys d) -> 1 <= k < TaskList.next_id s).
  { intros k H. rewrite K in H. apply filter_In in H. destruct H as [H _].
    apply count_from_In in H. lia. }
  split; [rewrite K; now apply NoDup_filter|]. split; [|split].
  - intros k task G. split.
    + rewrite Forall_forall in F. exact (F _ (dict_get_In _ _ _ G)).
    + apply R. apply dict_contains_keys. unfold Dict.contains. now rewrite G.
  - destruct (Dict.contains (TaskList.next_id s) d) eqn:E; [|reflexivity].
    apply dict_contains_keys, R in E. lia.
  - replace (List.length d) with (List.length (Dict.keys d))
      by apply length_map.
    rewrite K. etransitivity; [apply filter_length_le|].
    now rewrite count_from_length.
Qed.

(** Creating a task and deleting it again leaves the task map as it was
    (when the counter is not in use as a key, as in every reachable store);
    the counter has still moved on by one. *)
Theorem add_then_delete_restores_tasks
    (title : string) (description : option string) (s : TaskList.t) :
  Dict.contains (TaskList.next_id s) (TaskList.tasks s) = false ->
  let a := TaskList.add_task title description s in
  TaskList.delete_task (Task.id (fst a)) (snd a)
  = (true, TaskList.mk (TaskList.tasks s) (TaskList.next_id s + 1)).
Proof.
  intros H. unfold TaskList.add_task, TaskList.delete_task, Dict.contains.
  cbn [fst snd Task.id Task.init TaskList.tasks TaskList.next_id].
  rewrite dict_get_set_same. cbn [negb].
  now rewrite dict_del_set_absent.
Qed.

Lemma add_then_delete_restores_tasks_witness :
  TaskList.delete_task 2
    (snd (TaskList.add_task "Buy milk" None report_store))
  = (true, TaskList.mk (TaskList.tasks report_store) 3).
Proof.
  apply (add_then_delete_restores_tasks "Buy milk" None report_store).
  reflexivity.
Defined.

(** [update_task] is idempotent: the same call a second time returns the
    same result and leaves the store as the first call left it. *)
Theorem update_task_twice
    (task_id : Z) (title description : option string) (s : TaskList.t) :
  let r := TaskList.update_task task_id title description s in
  TaskList.update_task task_id title description (snd r) = r.
Proof.
  unfold TaskList.update_task.
  destruct (Dict.get task_id (TaskList.tasks s)) as [task|] eqn:G;
    cbn [snd TaskList.tasks TaskList.next_id].
  - rewrite dict_get_set_same, dict_set_set.
    now destruct title, description.
  - now rewrite G.
Qed.

(** Toggling one task and updating another, or the same one, give the same
    store in either order. *)
Theorem toggle_and_update_commute
    (i j : Z) (title description : option string) (s : TaskList.t) :
  snd (TaskList.toggle_task_completion i
         (snd (TaskList.update_task j title description s)))
  = snd (TaskList.update_task j title description
           (snd (TaskList.toggle_task_completion i s))).
Proof.
  unfold TaskList.toggle_task_completion, TaskList.update_task.
  destruct (Z.eq_dec i j) as [->|N].
  - destruct (Dict.get j (TaskList.tasks s)) as [task|] eqn:G;
      cbn [snd TaskList.tasks TaskList.next_id]; [|now rewrite G].
    rewrite !dict_get_set_same. cbn [snd TaskList.tasks TaskList.next_id].
    rewrite !dict_set_set. now destruct title, description.
  - destruct (Dict.get j (TaskList.tasks s)) as [tj|] eqn:Gj;
      destruct (Dict.get i (TaskList.tasks s)) as [ti|] eqn:Gi;
      cbn [snd TaskList.tasks TaskList.next_id];
      rewrite ?dict_get_set_other by congruence;
      rewrite ?Gi, ?Gj; cbn [snd TaskList.tasks TaskList.next_id];
      try reflexivity.
    f_equal. apply dict_set_comm; [exact N| |];
      unfold Dict.contains; now rewrite ?Gi, ?Gj.
Qed.

(** * Further properties of the handlers *)

Local Open Scope string_scope.

Ltac io_run :=
  cbv beta iota zeta delta
    [bind print input call int ret raise try_except_ValueError
     TaskList.get_all_tasks TaskList.get_task_by_id
     stdin stdout task_list fst snd final ends_well].

Lemma truthy_true (x : string) : truthy x = true <-> x <> "".
Proof. destruct x; simpl; split; congruence. Qed.

Lemma values_empty (d : Dict.t Task.t) :
  Dict.values d = [] <-> d = [].
Proof. destruct d; simpl; split; congruence. Qed.

(** The lookup that follows a successful toggle finds a task. *)
Lemma toggle_then_lookup (task_id : Z) (s : TaskList.t) :
  fst (TaskList.toggle_task_completion task_id s) = true ->
  exists task,
    Dict.get task_id
      (TaskList.tasks (snd (TaskList.toggle_task_completion task_id s)))
    = Some task.
Proof.
  unfold TaskList.toggle_task_completion.
  destruct (Dict.get task_id (TaskList.tasks s)); simpl; [|discriminate].
  intros _. eexists. apply dict_get_set_same.
Qed.

Lemma add_task_ends_well (w : world) :
  ends_well
    (fun s s' =>
       exists title description,
         title <> "" /\ description <> Some ""
         /\ s' = snd (TaskList.add_task title description s))
    w (add_task w).
Proof.
  destruct w as [s inp out]. unfold add_task. io_run.
  destruct inp as [|l1 inp]; [now repeat split|].
  destruct (truthy (strip l1)) eqn:T1; cbn [negb]; [|now left].
  destruct inp as [|l2 rest]; [now repeat split|].
  apply truthy_true in T1.
  destruct (truthy (strip l2)) eqn:T2; cbn [negb];
    unfold TaskList.add_task; right; do 2 eexists;
    (split; [exact T1 | split; [|reflexivity]]).
  - apply truthy_true in T2. congruence.
  - discriminate.
Qed.

Lemma mark_task_complete_ends_well (w : world) :
  ends_well
    (fun s s' =>
       exists task_id, s' = snd (TaskList.toggle_task_completion task_id s))
    w (mark_task_complete w).
Proof.
  destruct w as [s inp out]. unfold mark_task_complete. io_run.
  destruct (Dict.values (TaskList.tasks s)) as [|t0 l0]; [now left|].
  destruct inp as [|l rest]; [now repeat split|].
  destruct (py_int (strip l)) as [task_id|]; [|now left].
  pose proof (toggle_then_lookup task_id s) as L.
  destruct (TaskList.toggle_task_completion task_id s) as [[|] s'] eqn:E;
    cbn [fst snd] in *.
  - destruct (L eq_refl) as [task G]. rewrite G.
    right. exists task_id. now rewrite E.
  - right. exists task_id. now rewrite E.
Qed.

Lemma update_task_ends_well (w : world) :
  ends_well
    (fun s s' =>
       exists task_id title description,
         title <> Some "" /\ description <> Some ""
         /\ s' = snd (TaskList.update_task task_id title description s))
    w (update_task w).
Proof.
  destruct w as [s inp out]. unfold update_task. io_run.
  destruct (Dict.values (TaskList.tasks s)) as [|t0 l0]; [now left|].
  destruct inp as [|l1 inp]; [now repeat split|].
  destruct (py_int (strip l1)) as [task_id|]; [|now left].
  destruct (Dict.get task_id (TaskList.tasks s)) as [task|]; [|now left].
  destruct inp as [|l2 inp]; [now repeat split|].
  destruct inp as [|l3 rest]; [now repeat split|].
  match goal with
  | |- context [TaskList.update_task ?i ?t ?d s] =>
      assert (Ht : t <> Some "");
      [|assert (Hd : d <> Some "");
        [|destruct (TaskList.update_task i t d s) as [[|] s'] eqn:E;
          right; exists i, t, d; rewrite E; now repeat split]]
  end.
  - destruct (truthy (strip l2)) eqn:T; [|discriminate].
    apply truthy_true in T. congruence.
  - destruct (strip l3); simpl; congruence.
Qed.

Lemma delete_task_ends_well (w : world) :
  ends_well
    (fun s s' => exists task_id, s' = snd (TaskList.delete_task task_id s))
    w (delete_task w).
Proof.
  destruct w as [s inp out]. unfold delete_task. io_run.
  destruct (Dict.values (TaskList.tasks s)) as [|t0 l0]; [now left|].
  destruct inp as [|l1 inp]; [now repeat split|].
  destruct (py_int (strip l1)) as [task_id|]; [|now left].
  destruct (Dict.get task_id (TaskList.tasks s)) as [task|]; [|now left].
  destruct inp as [|l2 rest]; [now repeat split|].
  destruct (affirmative (lower (strip l2))); [|now left].
  destruct (TaskList.delete_task task_id s) as [[|] s'] eqn:E;
    right; exists task_id; now rewrite E.
Qed.

(** No keyboard interrupt being sent, a handler ends with an exception
    only when [input] finds standard input used up.  The exception is then
    [EOFError]: the [ValueError] of [int] is always caught by the handler,
    and the [AttributeError] of the Mark handler's lookup never arises.
    The store is then what it was before the handler started, for every
    read comes before the one call that changes the store. *)
Theorem handlers_raise_only_at_end_of_input (w w' : world) (e : exn) :
  add_task w = Raise e w'
  \/ mark_task_complete w = Raise e w'
  \/ update_task w = Raise e w'
  \/ delete_task w = Raise e w' ->
  e = EOFError /\ stdin w' = [] /\ task_list w' = task_list w.
Proof.
  intros [H|[H|[H|H]]].
  - pose proof (add_task_ends_well w) as W. rewrite H in W. simpl in W.
    tauto.
  - pose proof (mark_task_complete_ends_well w) as W. rewrite H in W.
    simpl in W. tauto.
  - pose proof (update_task_ends_well w) as W. rewrite H in W. simpl in W.
    tauto.
  - pose proof (delete_task_ends_well w) as W. rewrite H in W. simpl in W.
    tauto.
Qed.

Lemma handlers_raise_only_at_end_of_input_witness :
  exists w',
    delete_task (World report_store ["1"] []) = Raise EOFError w'
    /\ stdin w' = [] /\ task_list w' = report_store.
Proof.
  eexists. split; [cbv; reflexivity|].
  refine (proj2 (handlers_raise_only_at_end_of_input
                   (World report_store ["1"] []) _ EOFError _)).
  right. right. right. cbv. reflexivity.
Defined.

(** Whatever is typed, when the Add handler changes the store it does so by
    one call of [TaskList.add_task] whose title is not empty and whose
    description is [None] or not empty: the handler stores no task with an
    empty title and none with an empty description. *)
Theorem add_handler_creates_valid_tasks (w w' : world) :
  add_task w = Return tt w' ->
  task_list w' = task_list w
  \/ exists title description,
       title <> "" /\ description <> Some ""
       /\ task_list w'
          = snd (TaskList.add_task title description (task_list w)).
Proof.
  intros H. pose proof (add_task_ends_well w) as W. rewrite H in W.
  exact W.
Qed.

Lemma add_handler_creates_valid_tasks_witness :
  task_list
    (final (add_task (World report_store [" Buy milk "; "  "] [])))
  = report_store
  \/ exists title description,
       title <> "" /\ description <> Some ""
       /\ task_list
            (final (add_task (World report_store [" Buy milk "; "  "] [])))
          = snd (TaskList.add_task title description report_store).
Proof.
  apply (add_handler_creates_valid_tasks
           (World report_store [" Buy milk "; "  "] [])).
  reflexivity.
Defined.

Lemma exec_snoc_store (ops : list op) (o : op) :
  snd (exec (ops ++ [o])) = snd (step o (snd (exec ops))).
Proof.
  rewrite exec_snoc. unfold record.
  now destruct (step o (snd (exec ops))).
Qed.

Lemma ends_well_reachable
    (change : TaskList.t -> TaskList.t -> Prop) (ops : list op)
    (w : world) (r : result unit) :
  (forall s s', change s s' -> exists o, s' = snd (step o s)) ->
  task_list w = snd (exec ops) ->
  ends_well change w r ->
  exists ops',
    (ops' = ops \/ exists o, ops' = (ops ++ [o])%list)
    /\ task_list (final r) = snd (exec ops').
Proof.
  intros S R W.
  assert (task_list (final r) = task_list w
          \/ change (task_list w) (task_list (final r))) as [E|C].
  { destruct r; simpl in *; tauto. }
  - exists ops. split; [now left | congruence].
  - destruct (S _ _ C) as [o E]. exists (ops ++ [o])%list.
    split; [right; now exists o|]. rewrite exec_snoc_store, <- R. exact E.
Qed.

(** A handler takes a store that a sequence of [TaskList] calls leads to
    from the empty store to another such store, by no call or by one more
    call, however the handler ends.  So whatever holds of every such store
    holds throughout an interactive session. *)
Theorem handlers_keep_store_reachable
    (ops : list op) (w : world) (handler : io unit) :
  task_list w = snd (exec ops) ->
  In handler [add_task; mark_task_complete; update_task; delete_task] ->
  exists ops',
    (ops' = ops \/ exists o, ops' = (ops ++ [o])%list)
    /\ task_list (final (handler w)) = snd (exec ops').
Proof.
  intros R [<-|[<-|[<-|[<-|[]]]]].
  - eapply ends_well_reachable; [|exact R|apply add_task_ends_well].
    intros s s' (title & description & _ & _ & ->).
    now exists (Add title description).
  - eapply ends_well_reachable; [|exact R|apply mark_task_complete_ends_well].
    intros s s' (task_id & ->). now exists (Toggle task_id).
  - eapply ends_well_reachable; [|exact R|apply update_task_ends_well].
    intros s s' (task_id & title & description & _ & _ & ->).
    now exists (Update task_id title description).
  - eapply ends_well_reachable; [|exact R|apply delete_task_ends_well].
    intros s s' (task_id & ->). now exists (Delete task_id).
Qed.

Lemma handlers_keep_store_reachable_witness :
  exists ops',
    (ops' = [Add "Write report" (Some "finish by Friday")]
     \/ exists o,
          ops' = ([Add "Write report" (Some "finish by Friday")] ++ [o])%list)
    /\ task_list (final (mark_task_complete (World report_store ["1"] [])))
       = snd (exec ops').
Proof.
  apply (handlers_keep_store_reachable
           [Add "Write report" (Some "finish by Friday")]
           (World report_store ["1"] []) mark_task_complete).
  - reflexivity.
  - right. left. reflexivity.
Defined.

Lemma values_of_nonempty (d : Dict.t Task.t) :
  d <> [] -> exists t l, Dict.values d = t :: l.
Proof.
  destruct d as [|[k t] r]; [congruence|].
  intros _. now exists t, (Dict.values r).
Qed.

(** With no task in the store the Mark, Update and Delete handlers print
    their heading and the notice "No tasks available." and return: they
    read no line and leave the store alone. *)
Theorem handlers_on_empty_store (w : world) :
  TaskList.tasks (task_list w) = [] ->
  let after (heading : string) :=
    Return tt
      (World (task_list w) (stdin w)
         ((stdout w ++ [((nl ++ heading) ++ nl)%string])
          ++ [("No tasks available." ++ nl)%string])%list) in
  mark_task_complete w = after "--- Mark Task Complete/Incomplete ---"
  /\ update_task w = after "--- Update Task ---"
  /\ delete_task w = after "--- Delete Task ---".
Proof.
  intros E. destruct w as [s inp out]. cbn [task_list] in E.
  unfold mark_task_complete, update_task, delete_task. io_run.
  rewrite E. now repeat split.
Qed.

Lemma handlers_on_empty_store_witness :
  delete_task (World TaskList.init ["1"; "y"] [])
  = Return tt
      (World TaskList.init ["1"; "y"]
         [(nl ++ "--- Delete Task ---") ++ nl; "No tasks available." ++ nl]).
Proof.
  exact (proj2 (proj2 (handlers_on_empty_store
                         (World TaskList.init ["1"; "y"] []) eq_refl))).
Defined.





(** With tasks in the store, an identifier line that is not a number, or a
    number that no task has, ends the Mark, Update and Delete handlers
    after that one line: they return normally and the store is what it
    was. *)
Theorem bad_identifier_is_rejected
    (w : world) (line : string) (rest : list string) :
  stdin w = line :: rest ->
  TaskList.tasks (task_list w) <> [] ->
  py_int (strip line) = None
  \/ (exists task_id,
        py_int (strip line) = Some task_id
        /\ Dict.get task_id (TaskList.tasks (task_list w)) = None) ->
  exists out1 out2 out3,
    mark_task_complete w = Return tt (World (task_list w) rest out1)
    /\ update_task w = Return tt (World (task_list w) rest out2)
    /\ delete_task w = Return tt (World (task_list w) rest out3).
Proof.
  intros I NE B. destruct w as [s inp out]. cbn [stdin task_list] in *.
  subst inp. destruct (values_of_nonempty _ NE) as (t0 & l0 & V).
  unfold mark_task_complete, update_task, delete_task. io_run. rewrite V.
  destruct B as [P|(task_id & P & G)]; rewrite P.
  - do 3 eexists. repeat split.
  - unfold TaskList.toggle_task_completion. rewrite G.
    do 3 eexists. repeat split.
Qed.

Lemma bad_identifier_is_rejected_witness :
  exists out1 out2 out3,
    mark_task_complete (World report_store ["one"; "y"] [])
    = Return tt (World report_store ["y"] out1)
    /\ update_task (World report_store ["one"; "y"] [])
       = Return tt (World report_store ["y"] out2)
    /\ delete_task (World report_store ["one"; "y"] [])
       = Return tt (World report_store ["y"] out3).
Proof.
  apply (bad_identifier_is_rejected
           (World report_store ["one"; "y"] []) "one" ["y"]).
  - reflexivity.
  - discriminate.
  - left. reflexivity.
Defined.

Local Open Scope Z_scope.

Lemma ends_well_final
    (change : TaskList.t -> TaskList.t -> Prop) (P : TaskList.t -> Prop)
    (w : world) (r : result unit) :
  ends_well change w r ->
  P (task_list w) ->
  (forall s', change (task_list w) s' -> P s') ->
  P (task_list (final r)).
Proof.
  intros W H0 H. destruct r; simpl in *.
  - destruct W as [->|C]; auto.
  - destruct W as (_ & -> & _). exact H0.
Qed.

Lemma update_task_frame
    (task_id : Z) (title description : option string) (s : TaskList.t) :
  let s' := snd (TaskList.update_task task_id title description s) in
  TaskList.next_id s' = TaskList.next_id s
  /\ Dict.keys (TaskList.tasks s') = Dict.keys (TaskList.tasks s)
  /\ forall k task,
       Dict.get k (TaskList.tasks s) = Some task ->
       exists task',
         Dict.get k (TaskList.tasks s') = Some task'
         /\ Task.id task' = Task.id task
         /\ Task.completed task' = Task.completed task.
Proof.
  unfold TaskList.update_task.
  destruct (Dict.get task_id (TaskList.tasks s)) as [old|] eqn:G;
    cbn [snd TaskList.tasks TaskList.next_id].
  - split; [reflexivity|]. split.
    + apply dict_keys_set_present. unfold Dict.contains. now rewrite G.
    + intros k task H. destruct (Z.eq_dec k task_id) as [->|N].
      * rewrite dict_get_set_same. eexists. split; [reflexivity|].
        assert (old = task) by congruence. subst old.
        now destruct title, description.
      * rewrite dict_get_set_other by exact N. now exists task.
  - split; [reflexivity|]. split; [reflexivity|].
    intros k task H. now exists task.
Qed.

Lemma toggle_task_completion_frame (task_id : Z) (s : TaskList.t) :
  let s' := snd (TaskList.toggle_task_completion task_id s) in
  TaskList.next_id s' = TaskList.next_id s
  /\ Dict.keys (TaskList.tasks s') = Dict.keys (TaskList.tasks s)
  /\ forall k task,
       Dict.get k (TaskList.tasks s) = Some task ->
       exists task',
         Dict.get k (TaskList.tasks s') = Some task'
         /\ Task.id task' = Task.id task
         /\ Task.title task' = Task.title task
         /\ Task.description task' = Task.description task.
Proof.
  unfold TaskList.toggle_task_completion.
  destruct (Dict.get task_id (TaskList.tasks s)) as [old|] eqn:G;
    cbn [snd TaskList.tasks TaskList.next_id].
  - split; [reflexivity|]. split.
    + apply dict_keys_set_present. unfold Dict.contains. now rewrite G.
    + intros k task H. destruct (Z.eq_dec k task_id) as [->|N].
      * rewrite dict_get_set_same. eexists. split; [reflexivity|].
        assert (old = task) by congruence. now subst old.
      * rewrite dict_get_set_other by exact N. now exists task.
  - split; [reflexivity|]. split; [reflexivity|].
    intros k task H. now exists task.
Qed.

Lemma delete_task_frame (task_id : Z) (s : TaskList.t) :
  let s' := snd (TaskList.delete_task task_id s) in
  TaskList.next_id s' = TaskList.next_id s
  /\ forall k,
       Dict.get k (TaskList.tasks s') = Dict.get k (TaskList.tasks s)
       \/ Dict.get k (TaskList.tasks s') = None.
Proof.
  unfold TaskList.delete_task.
  destruct (Dict.contains task_id (TaskList.tasks s));
    cbn [negb snd TaskList.tasks TaskList.next_id].
  - split; [reflexivity|]. intros k. rewrite dict_get_del.
    destruct (task_id =? k); auto.
  - split; [reflexivity|]. now left.
Qed.

(** Whatever is typed and however the handler ends: the Update handler
    changes no counter, no key, no [id] and no completed flag; the Mark
    handler changes no counter, no key, no [id], no title and no
    description; the Delete handler changes no counter and no task that it
    leaves in the store. *)
Theorem handlers_change_only_their_own_fields
    (w : world) (k : Z) (task : Task.t) :
  Dict.get k (TaskList.tasks (task_list w)) = Some task ->
  let s := task_list w in
  (let s' := task_list (final (update_task w)) in
   TaskList.next_id s' = TaskList.next_id s
   /\ Dict.keys (TaskList.tasks s') = Dict.keys (TaskList.tasks s)
   /\ exists task',
        Dict.get k (TaskList.tasks s') = Some task'
        /\ Task.id task' = Task.id task
        /\ Task.completed task' = Task.completed task)
  /\ (let s' := task_list (final (mark_task_complete w)) in
      TaskList.next_id s' = TaskList.next_id s
      /\ Dict.keys (TaskList.tasks s') = Dict.keys (TaskList.tasks s)
      /\ exists task',
           Dict.get k (TaskList.tasks s') = Some task'
           /\ Task.id task' = Task.id task
           /\ Task.title task' = Task.title task
           /\ Task.description task' = Task.description task)
  /\ (let s' := task_list (final (delete_task w)) in
      TaskList.next_id s' = TaskList.next_id s
      /\ (Dict.get k (TaskList.tasks s') = Some task
          \/ Dict.get k (TaskList.tasks s') = None)).
Proof.
  intros G. cbn zeta. split; [|split].
  - pattern (task_list (final (update_task w))).
    apply (ends_well_final _ _ w _ (update_task_ends_well w)); cbv beta.
    + split; [reflexivity|]. split; [reflexivity|]. now exists task.
    + intros s' (task_id & title & description & _ & _ & ->).
      destruct (update_task_frame task_id title description (task_list w))
        as (A & B & C).
      split; [exact A|]. split; [exact B|]. exact (C _ _ G).
  - pattern (task_list (final (mark_task_complete w))).
    apply (ends_well_final _ _ w _ (mark_task_complete_ends_well w)); cbv beta.
    + split; [reflexivity|]. split; [reflexivity|]. now exists task.
    + intros s' (task_id & ->).
      destruct (toggle_task_completion_frame task_id (task_list w))
        as (A & B & C).
      split; [exact A|]. split; [exact B|]. exact (C _ _ G).
  - pattern (task_list (final (delete_task w))).
    apply (ends_well_final _ _ w _ (delete_task_ends_well w)); cbv beta.
    + split; [reflexivity|]. now left.
    + intros s' (task_id & ->).
      destruct (delete_task_frame task_id (task_list w)) as (A & B).
      split; [exact A|]. rewrite <- G. apply B.
Qed.

Lemma handlers_change_only_their_own_fields_witness :
  exists task',
    Dict.get 1
      (TaskList.tasks
         (task_list
            (final (update_task
                      (World report_store ["1"; "Write memo"; "today"] [])))))
    = Some task'
    /\ Task.id task' = 1
    /\ Task.completed task' = false.
Proof.
  destruct (handlers_change_only_their_own_fields
              (World report_store ["1"; "Write memo"; "today"] [])
              1 report_task eq_refl) as ((_ & _ & A) & _).
  exact A.
Defined.

Lemma reachable_key_bound (ops : list op) (k : Z) :
  Dict.contains k (TaskList.tasks (snd (exec ops))) = true ->
  1 <= k < TaskList.next_id (snd (exec ops)).
Proof.
  destruct (exec_consistent ops) as (K & _ & _ & _).
  destruct (exec_ids ops) as [I C]. rewrite I in K.
  intros H. apply dict_contains_keys in H. rewrite K in H.
  apply filter_In in H. destruct H as [H _].
  apply count_from_In in H. lia.
Qed.

Lemma step_keeps_gone (o : op) (s : TaskList.t) (k : Z) :
  k < TaskList.next_id s ->
  Dict.contains k (TaskList.tasks s) = false ->
  k < TaskList.next_id (snd (step o s))
  /\ Dict.contains k (TaskList.tasks (snd (step o s))) = false.
Proof.
  intros B C.
  destruct o as [title description|task_id title description|task_id|task_id];
    cbn [step snd].
  - unfold TaskList.add_task. cbn [snd TaskList.tasks TaskList.next_id].
    split; [lia|]. rewrite dict_contains_set, C.
    destruct (k =? TaskList.next_id s) eqn:E; [|reflexivity].
    apply Z.eqb_eq in E. lia.
  - unfold TaskList.update_task.
    destruct (Dict.get task_id (TaskList.tasks s)) eqn:G;
      cbn [snd TaskList.tasks TaskList.next_id]; [|now split].
    split; [exact B|]. rewrite dict_contains_set, C.
    destruct (k =? task_id) eqn:E; [|reflexivity].
    apply Z.eqb_eq in E. subst k. unfold Dict.contains in C.
    now rewrite G in C.
  - unfold TaskList.delete_task.
    destruct (Dict.contains task_id (TaskList.tasks s));
      cbn [negb snd TaskList.tasks TaskList.next_id]; [|now split].
    split; [exact B|]. rewrite dict_contains_del, C. apply andb_false_r.
  - unfold TaskList.toggle_task_completion.
    destruct (Dict.get task_id (TaskList.tasks s)) eqn:G;
      cbn [snd TaskList.tasks TaskList.next_id]; [|now split].
    split; [exact B|]. rewrite dict_contains_set, C.
    destruct (k =? task_id) eqn:E; [|reflexivity].
    apply Z.eqb_eq in E. subst k. unfold Dict.contains in C.
    now rewrite G in C.
Qed.

(** A task that has been deleted never comes back: once [delete_task] has
    removed a stored identifier, no later sequence of calls puts a task
    under that identifier again. *)
Theorem deleted_task_never_comes_back (before later : list op) (k : Z) :
  Dict.contains k (TaskList.tasks (snd (exec before))) = true ->
  let s := snd (exec (before ++ Delete k :: later)) in
  k < TaskList.next_id s
  /\ fst (TaskList.get_task_by_id k s) = None.
Proof.
  intros H. cbn zeta.
  assert (G : k < TaskList.next_id
                    (snd (exec (before ++ Delete k :: later)))
              /\ Dict.contains k
                   (TaskList.tasks
                      (snd (exec (before ++ Delete k :: later)))) = false).
  { induction later as [|o later IH] using rev_ind.
    - rewrite exec_snoc_store. cbn [step].
      pose proof (reachable_key_bound _ _ H) as B.
      unfold TaskList.delete_task. rewrite H.
      cbn [negb snd TaskList.tasks TaskList.next_id].
      split; [lia|]. rewrite dict_contains_del, Z.eqb_refl. reflexivity.
    - replace (before ++ Delete k :: later ++ [o])%list
        with ((before ++ Delete k :: later) ++ [o])%list
        by (rewrite <- app_assoc; reflexivity).
      rewrite exec_snoc_store. now apply step_keeps_gone. }
  destruct G as [B C]. split; [exact B|].
  unfold TaskList.get_task_by_id. unfold Dict.contains in C. cbn [fst].
  destruct (Dict.get k _); [discriminate C | reflexivity].
Qed.

Lemma deleted_task_never_comes_back_witness :
  fst (TaskList.get_task_by_id 1
         (snd (exec ([Add "A" None; Add "B" None]
                     ++ Delete 1 :: [Add "C" None; Toggle 1]))))
  = None.
Proof.
  apply (deleted_task_never_comes_back
           [Add "A"%string None; Add "B"%string None]
           [Add "C"%string None; Toggle 1] 1).
  reflexivity.
Defined.

Local Open Scope string_scope.

Lemma lstrip_head (s : string) :
  lstrip s = "" \/ exists c r, lstrip s = String c r /\ isspace c = false.
Proof.
  induction s as [|c r IH]; simpl; [now left|].
  destruct (isspace c) eqn:E; [exact IH|].
  right. now exists c, r.
Qed.

Lemma rstrip_head (c : ascii) (r : string) :
  isspace c = false -> exists r', rstrip (String c r) = String c r'.
Proof.
  intros E. simpl. rewrite E. destruct (rstrip r); eexists; reflexivity.
Qed.

Lemma rstrip_rstrip (s : string) : rstrip (rstrip s) = rstrip s.
Proof.
  induction s as [|c r IH]; simpl; [reflexivity|].
  destruct (rstrip r) as [|c' r'] eqn:E.
  - destruct (isspace c) eqn:S; simpl; [reflexivity|]. now rewrite S.
  - change (rstrip (String c (String c' r')))
      with (match rstrip (String c' r') with
            | "" => if isspace c then "" else String c ""
            | x => String c x
            end).
    now rewrite IH.
Qed.

(** Stripping what has been stripped changes nothing. *)
Lemma strip_strip (s : string) : strip (strip s) = strip s.
Proof.
  unfold strip.
  destruct (lstrip_head s) as [E|(c & r & E & S)]; rewrite E.
  - reflexivity.
  - destruct (rstrip_head c r S) as [r' R]. rewrite R.
    cbn [lstrip]. rewrite S, <- R. apply rstrip_rstrip.
Qed.

(** What the Add handler stores for a title line that is not blank: a task
    under the counter's value whose title is the stripped line (it has no
    white space at either end and is not empty), whose description is the
    stripped second line, or [None] when that line is blank, and which is
    not completed; the two lines are used up and the handler returns. *)
Theorem add_handler_stores_stripped_text
    (w : world) (title_line description_line : string)
    (rest : list string) :
  stdin w = title_line :: description_line :: rest ->
  strip title_line <> "" ->
  exists w' task,
    add_task w = Return tt w'
    /\ stdin w' = rest
    /\ TaskList.next_id (task_list w') = (TaskList.next_id (task_list w) + 1)%Z
    /\ Dict.get (TaskList.next_id (task_list w))
         (TaskList.tasks (task_list w')) = Some task
    /\ Task.id task = TaskList.next_id (task_list w)
    /\ Task.title task = strip title_line
    /\ strip (Task.title task) = Task.title task
    /\ Task.description task
       = (if truthy (strip description_line)
          then Some (strip description_line) else None)
    /\ Task.completed task = false.
Proof.
  intros I B. destruct (add_task_handler_creates w _ _ _ I B) as [out E].
  eexists. eexists. split; [exact E|].
  unfold TaskList.add_task. cbn [stdin task_list snd TaskList.tasks
                                   TaskList.next_id].
  split; [reflexivity|]. split; [reflexivity|].
  split; [apply dict_get_set_same|].
  cbn [Task.init Task.id Task.title Task.description Task.completed].
  repeat split. apply strip_strip.
Qed.

Lemma add_handler_stores_stripped_text_witness :
  exists w' task,
    add_task (World report_store ["  Buy milk "; "   "; "2"] [])
    = Return tt w'
    /\ stdin w' = ["2"]
    /\ TaskList.next_id (task_list w') = 3%Z
    /\ Dict.get 2 (TaskList.tasks (task_list w')) = Some task
    /\ Task.id task = 2%Z
    /\ Task.title task = "Buy milk"
    /\ strip (Task.title task) = Task.title task
    /\ Task.description task = None
    /\ Task.completed task = false.
Proof.
  apply (add_handler_stores_stripped_text
           (World report_store ["  Buy milk "; "   "; "2"] [])
           "  Buy milk " "   " ["2"]).
  - reflexivity.
  - discriminate.
Defined.



(** * Identifiers as text *)

Local Open Scope Z_scope.

Lemma int_digits_step (c : ascii) (k acc : Z) (r : string) :
  digit c = Some k ->
  Ascii.eqb c "_" = false ->
  int_digits acc false (String c r) = int_digits (10 * acc + k) false r.
Proof. intros D U. cbn [int_digits]. now rewrite U, D. Qed.

Ltac eval_digit :=
  match goal with
  | |- context [digit ?c] =>
      let v := eval vm_compute in (digit c) in change (digit c) with v
  end.

(** Reading the digits of [d] after the digits [l] (last digit first) have
    been read. *)
Lemma int_digits_uint (d l : Decimal.uint) :
  int_digits (Z.of_N (DecimalPos.Unsigned.of_lu l)) false (NilEmpty.string_of_uint d)
  = Some (Z.of_N (DecimalPos.Unsigned.of_lu (Decimal.revapp d l))).
Proof.
  revert l.
  induction d as [|d IH|d IH|d IH|d IH|d IH|d IH|d IH|d IH|d IH|d IH];
    intros l; cbn [NilEmpty.string_of_uint Decimal.revapp];
    [reflexivity|..];
    cbn [int_digits];
    match goal with
    | |- context [Ascii.eqb ?c "_"] =>
        change (Ascii.eqb c "_") with false
    end;
    eval_digit; cbv iota; rewrite <- IH; f_equal;
    cbn [DecimalPos.Unsigned.of_lu]; lia.
Qed.

Lemma lstrip_uint (d : Decimal.uint) :
  lstrip (NilEmpty.string_of_uint d) = NilEmpty.string_of_uint d.
Proof. now destruct d. Qed.

Lemma rstrip_uint (d : Decimal.uint) :
  rstrip (NilEmpty.string_of_uint d) = NilEmpty.string_of_uint d.
Proof.
  induction d; cbn [NilEmpty.string_of_uint rstrip]; [reflexivity|..];
    rewrite IHd; now destruct (NilEmpty.string_of_uint d).
Qed.

Lemma int_unsigned_uint (p : positive) :
  int_unsigned (NilEmpty.string_of_uint (Pos.to_uint p)) = Some (Z.pos p).
Proof.
  pose proof (DecimalPos.Unsigned.of_to p) as E.
  rewrite DecimalPos.Unsigned.of_uint_alt in E. unfold Decimal.rev in E.
  pose proof (DecimalPos.Unsigned.to_uint_nonnil p) as NN.
  destruct (Pos.to_uint p) as [|d|d|d|d|d|d|d|d|d|d]; [congruence|..];
    cbn [NilEmpty.string_of_uint int_unsigned Decimal.revapp] in *;
    eval_digit; cbv iota;
    match type of E with
    | DecimalPos.Unsigned.of_lu (Decimal.revapp d ?l) = _ =>
        match goal with
        | |- int_digits ?k false _ = _ =>
            change k with (Z.of_N (DecimalPos.Unsigned.of_lu l))
        end
    end;
    rewrite int_digits_uint; now rewrite E.
Qed.

(** An identifier reads back as it is printed: the text an f-string
    produces for an [int] has no white space to strip, and [int] of it is
    the identifier again. *)
Lemma printed_identifier_reads_back (n : Z) :
  strip (py_str n) = py_str n /\ py_int (strip (py_str n)) = Some n.
Proof.
  assert (S : strip (py_str n) = py_str n).
  { unfold py_str, strip, Z.to_int. destruct n as [|p|p]; [reflexivity|..];
      pose proof (DecimalPos.Unsigned.to_uint_nonnil p) as NN;
      unfold NilZero.string_of_int, NilZero.string_of_uint.
    - destruct (Pos.to_uint p) eqn:E; [congruence|..];
        now rewrite lstrip_uint, rstrip_uint.
    - destruct (Pos.to_uint p) eqn:E; [congruence|..];
        cbn [lstrip]; change (isspace "-") with false; cbv iota;
        cbn [rstrip]; rewrite rstrip_uint;
        now destruct (NilEmpty.string_of_uint _). }
  split; [exact S|]. rewrite S. unfold py_int. rewrite S.
  unfold py_str, Z.to_int. destruct n as [|p|p]; [reflexivity|..];
    pose proof (DecimalPos.Unsigned.to_uint_nonnil p) as NN;
    pose proof (int_unsigned_uint p) as U;
    unfold NilZero.string_of_int, NilZero.string_of_uint.
  - destruct (Pos.to_uint p) eqn:E; [congruence|..]; exact U.
  - destruct (Pos.to_uint p) eqn:E; [congruence|..];
      cbv iota beta; rewrite U; reflexivity.
Qed.

Local Open Scope string_scope.

(** The identifier of a stored task, typed the way the handlers print it,
    selects that task: the Mark handler toggles it, and the Delete handler,
    answered "y", deletes it. *)
Theorem printed_identifier_selects_the_task
    (w : world) (rest : list string) (task_id : Z) (task : Task.t) :
  Dict.get task_id (TaskList.tasks (task_list w)) = Some task ->
  (stdin w = py_str task_id :: rest ->
   exists out,
     mark_task_complete w
     = Return tt
         (World (snd (TaskList.toggle_task_completion task_id (task_list w)))
            rest out))
  /\ (stdin w = py_str task_id :: "y" :: rest ->
      exists out,
        delete_task w
        = Return tt
            (World (snd (TaskList.delete_task task_id (task_list w)))
               rest out)).
Proof.
  intros G. destruct w as [s inp out]. cbn [stdin task_list] in *.
  destruct (values_nonempty _ _ _ G) as (t0 & l0 & V).
  destruct (printed_identifier_reads_back task_id) as [_ P].
  split; intros ->.
  - unfold mark_task_complete. io_run. rewrite V, P.
    unfold TaskList.toggle_task_completion. rewrite G.
    cbn [TaskList.tasks]. rewrite dict_get_set_same.
    eexists. reflexivity.
  - unfold delete_task. io_run. rewrite V, P, G.
    change (affirmative (lower (strip "y"))) with true. cbv iota.
    unfold TaskList.delete_task, Dict.contains. rewrite G. cbn [negb].
    eexists. reflexivity.
Qed.

Lemma printed_identifier_selects_the_task_witness :
  exists out,
    delete_task (World report_store ["1"; "y"; "6"] [])
    = Return tt (World (TaskList.mk [] 2) ["6"] out).
Proof.
  exact (proj2 (printed_identifier_selects_the_task
                  (World report_store ["1"; "y"; "6"] []) ["6"] 1%Z
                  report_task eq_refl) eq_refl).
Defined.

(** * Standard input is only consumed *)

Section Consumes.
Context {A B : Type}.

Lemma consumes_ret (a : A) : consumes (ret a).
Proof. intros w. now exists []. Qed.

Lemma consumes_raise (e : exn) : consumes (@raise A e).
Proof. intros w. now exists []. Qed.

Lemma consumes_call (method : TaskList.t -> A * TaskList.t) :
  consumes (call method).
Proof.
  intros w. exists []. unfold call. now destruct (method (task_list w)).
Qed.

Lemma consumes_bind (m : io A) (k : A -> io B) :
  consumes m -> (forall a, consumes (k a)) -> consumes (bind m k).
Proof.
  intros Hm Hk w. unfold bind. destruct (Hm w) as [u1 E1].
  destruct (m w) as [a w'|e w']; cbn [final] in *.
  - destruct (Hk a w') as [u2 E2]. exists (u1 ++ u2)%list.
    now rewrite E1, E2 at 1; rewrite app_assoc.
  - now exists u1.
Qed.

Lemma consumes_try_ValueError (body handler : io A) :
  consumes body -> consumes handler ->
  consumes (try_except_ValueError body handler).
Proof.
  intros Hb Hh w. unfold try_except_ValueError. destruct (Hb w) as [u1 E1].
  destruct (body w) as [a w'|[| |] w']; cbn [final] in *;
    try (now exists u1).
  destruct (Hh w') as [u2 E2]. exists (u1 ++ u2)%list.
  now rewrite E1, E2 at 1; rewrite app_assoc.
Qed.

Lemma consumes_try_Exception (body : io A) (handler : exn -> io A) :
  consumes body -> (forall e, consumes (handler e)) ->
  consumes (try_except_Exception body handler).
Proof.
  intros Hb Hh w. unfold try_except_Exception. destruct (Hb w) as [u1 E1].
  destruct (body w) as [a w'|e w']; cbn [final] in *; [now exists u1|].
  destruct (Hh e w') as [u2 E2]. exists (u1 ++ u2)%list.
  now rewrite E1, E2 at 1; rewrite app_assoc.
Qed.
End Consumes.

Lemma consumes_print (s : string) : consumes (print s).
Proof. intros w. now exists []. Qed.

Lemma consumes_input (prompt : string) : consumes (input prompt).
Proof.
  intros [s inp out]. unfold input. cbn [stdin].
  destruct inp as [|line rest]; [now exists [] | now exists [line]].
Qed.

Lemma consumes_int (s : string) : consumes (int s).
Proof.
  unfold int. destruct (py_int s); [apply consumes_ret | apply consumes_raise].
Qed.

Ltac consumes_step :=
  first
    [ apply consumes_print | apply consumes_input | apply consumes_int
    | apply consumes_call | apply consumes_ret | apply consumes_raise
    | apply consumes_bind; [|intros ?]
    | apply consumes_try_ValueError
    | match goal with
      | |- consumes (match ?x with _ => _ end) => destruct x
      | |- consumes (if ?b then _ else _) => destruct b
      end
    | progress cbv zeta ].

Lemma add_task_consumes : consumes add_task.
Proof. unfold add_task. repeat consumes_step. Qed.

Lemma mark_task_complete_consumes : consumes mark_task_complete.
Proof. unfold mark_task_complete. repeat consumes_step. Qed.

Lemma update_task_consumes : consumes update_task.
Proof. unfold update_task. repeat consumes_step. Qed.

Lemma delete_task_consumes : consumes delete_task.
Proof. unfold delete_task. repeat consumes_step. Qed.

(** * Viewing and the main loop *)

Section ScreenFacts.
Variables (check_mark circle : string) (message : exn -> string).

Lemma for_each_task_lines (tasks : list Task.t) (w : world) :
  for_each tasks
    (fun task =>
       print (Task_str check_mark circle task) ;;
       match Task.description task with
       | Some d =>
           if truthy d then print ("     Description: " ++ d) else ret tt
       | None => ret tt
       end ;;
       print "") w
  = Return tt
      (World (task_list w) (stdin w)
         (stdout w ++ List.concat (map (task_lines check_mark circle) tasks))%list).
Proof.
  revert w. induction tasks as [|task tasks IH]; intros [s inp out].
  - cbn [for_each map List.concat]. unfold ret. cbn [stdin stdout task_list].
    now rewrite app_nil_r.
  - cbn [for_each map List.concat]. unfold bind at 1.
    assert (E : (print (Task_str check_mark circle task) ;;
                 match Task.description task with
                 | Some d =>
                     if truthy d then print ("     Description: " ++ d)
                     else ret tt
                 | None => ret tt
                 end ;;
                 print "") (World s inp out)
                = Return tt (World s inp (out ++ task_lines check_mark circle task)%list)).
    { unfold task_lines. io_run.
      destruct (Task.description task) as [d|]; [destruct (truthy d)|];
        io_run; cbn [app]; now rewrite <- ?app_assoc. }
    rewrite E, IH. cbn [stdin stdout task_list]. now rewrite app_assoc.
Qed.

(** [view_tasks] only writes: it returns normally with the store and the
    waiting input as they were.  After its heading it writes "No tasks
    found." for an empty store, and otherwise, for each task in the order
    of the dictionary, the task's line, the description when there is one
    that is not empty, and an empty line. *)
Theorem view_tasks_writes_every_task (w : world) :
  view_tasks check_mark circle w
  = Return tt
      (World (task_list w) (stdin w)
         ((stdout w ++ [((nl ++ "--- All Tasks ---") ++ nl)%string])
          ++ match TaskList.tasks (task_list w) with
             | [] => [("No tasks found." ++ nl)%string]
             | _ :: _ =>
                 List.concat
                   (map (task_lines check_mark circle)
                      (Dict.values (TaskList.tasks (task_list w))))
             end)%list).
Proof.
  destruct w as [s inp out]. unfold view_tasks.
  unfold bind at 1. unfold print at 1. unfold bind at 1. unfold call at 1.
  unfold TaskList.get_all_tasks. cbn [stdin stdout task_list].
  destruct (TaskList.tasks s) as [|[k t] r] eqn:E.
  - reflexivity.
  - cbn [Dict.values map]. rewrite for_each_task_lines. reflexivity.
Qed.

Lemma view_tasks_keeps_world (w : world) :
  exists out,
    view_tasks check_mark circle w
    = Return tt (World (task_list w) (stdin w) out).
Proof.
  destruct w as [s inp out]. unfold view_tasks.
  unfold bind at 1. unfold print at 1. unfold bind at 1. unfold call at 1.
  unfold TaskList.get_all_tasks. cbn [stdin stdout task_list fst snd].
  destruct (Dict.values (TaskList.tasks s)) as [|t r].
  - eexists. reflexivity.
  - rewrite for_each_task_lines. eexists. reflexivity.
Qed.

Lemma display_menu_keeps_world (w : world) :
  exists out,
    display_menu w = Return tt (World (task_list w) (stdin w) out).
Proof. destruct w as [s inp out]. eexists. reflexivity. Qed.

(** A handler called from the loop: whatever it does, the turn goes on
    with the world the handler left. *)
Lemma handler_in_loop (handler : io unit) (w : world) :
  exists w',
    try_except_Exception (handler ;; ret false)
      (fun e => print ("An error occurred: " ++ message e) ;; ret false) w
    = Return false w'
    /\ task_list w' = task_list (final (handler w))
    /\ stdin w' = stdin (final (handler w)).
Proof.
  unfold try_except_Exception, bind at 1.
  destruct (handler w) as [[] w'|e [s inp out]]; cbn [final].
  - exists w'. now repeat split.
  - eexists. unfold bind, print, ret. cbn [stdin stdout task_list].
    now repeat split.
Qed.

Lemma ends_well_one_more
    (change : TaskList.t -> TaskList.t -> Prop) (w : world)
    (r : result unit) :
  (forall s s', change s s' -> exists o, s' = snd (step o s)) ->
  ends_well change w r ->
  task_list (final r) = task_list w
  \/ exists o, task_list (final r) = snd (step o (task_list w)).
Proof.
  intros S W. destruct r; simpl in *.
  - destruct W as [E|C]; [now left | right; eauto].
  - left. tauto.
Qed.

(** One turn of the loop always completes.  It changes the store by at
    most one [TaskList] call and standard input by taking lines off its
    front; it asks to stop only when the line read as the choice is, once
    stripped, "6", and then the store is untouched and the farewell is the
    last thing written. *)
Lemma turn_spec (w : world) :
  exists b w',
    turn check_mark circle message w = Return b w'
    /\ (task_list w' = task_list w
        \/ exists o, task_list w' = snd (step o (task_list w)))
    /\ (exists used, stdin w = (used ++ stdin w')%list)
    /\ (b = true ->
        task_list w' = task_list w
        /\ (exists line, stdin w = line :: stdin w' /\ strip line = "6")
        /\ exists out, stdout w' = (out ++ [goodbye])%list).
Proof.
  unfold turn. unfold bind at 1.
  destruct (display_menu_keeps_world w) as [out0 ->].
  destruct w as [s inp out]. cbn [stdin stdout task_list].
  unfold choose.
  destruct inp as [|line rest].
  { eexists. eexists. split; [reflexivity|]. cbn [stdin task_list].
    split; [now left|]. split; [now exists []|]. discriminate. }
  set (w1 := World s rest (out0 ++ ["Enter your choice (1-6): "])%list).
  assert (R : forall (handler : io unit),
             (task_list (final (handler w1)) = s
              \/ exists o, task_list (final (handler w1)) = snd (step o s)) ->
             consumes handler ->
             exists b w',
               try_except_Exception (handler ;; ret false)
                 (fun e =>
                    print ("An error occurred: " ++ message e) ;; ret false)
                 w1 = Return b w'
               /\ (task_list w' = s
                   \/ exists o, task_list w' = snd (step o s))
               /\ (exists used, line :: rest = (used ++ stdin w')%list)
               /\ (b = true ->
                   task_list w' = s
                   /\ (exists l, line :: rest = l :: stdin w'
                                 /\ strip l = "6")
                   /\ exists o, stdout w' = (o ++ [goodbye])%list)).
  { intros handler S C. destruct (handler_in_loop handler w1) as (w' & E & T & I).
    exists false, w'. split; [exact E|]. rewrite T. split; [exact S|].
    split; [|discriminate]. destruct (C w1) as [used U]. cbn [stdin] in U.
    exists (line :: used). rewrite I. cbn [app]. now rewrite <- U. }
  unfold try_except_Exception at 1, bind at 1, input at 1.
  cbn [stdin stdout task_list]. fold w1.
  destruct (String.eqb (strip line) "1") eqn:C1.
  { apply R; [|apply add_task_consumes].
    apply (ends_well_one_more _ w1 _) with (2 := add_task_ends_well w1).
    intros ? ? (t & d & _ & _ & ->). now exists (Add t d). }
  destruct (String.eqb (strip line) "2") eqn:C2.
  { destruct (view_tasks_keeps_world w1) as [o V].
    apply R.
    - left. now rewrite V.
    - intros w. destruct (view_tasks_keeps_world w) as [o' ->].
      now exists []. }
  destruct (String.eqb (strip line) "3") eqn:C3.
  { apply R; [|apply mark_task_complete_consumes].
    apply (ends_well_one_more _ w1 _)
      with (2 := mark_task_complete_ends_well w1).
    intros ? ? (i & ->). now exists (Toggle i). }
  destruct (String.eqb (strip line) "4") eqn:C4.
  { apply R; [|apply update_task_consumes].
    apply (ends_well_one_more _ w1 _) with (2 := update_task_ends_well w1).
    intros ? ? (i & t & d & _ & _ & ->). now exists (Update i t d). }
  destruct (String.eqb (strip line) "5") eqn:C5.
  { apply R; [|apply delete_task_consumes].
    apply (ends_well_one_more _ w1 _) with (2 := delete_task_ends_well w1).
    intros ? ? (i & ->). now exists (Delete i). }
  destruct (String.eqb (strip line) "6") eqn:C6.
  - apply String.eqb_eq in C6. eexists. eexists.
    split; [reflexivity|]. cbn [stdin stdout task_list].
    split; [now left|]. split; [now exists [line]|]. intros _.
    split; [reflexivity|]. split; [now exists line|].
    eexists. reflexivity.
  - eexists. eexists. split; [reflexivity|]. cbn [stdin stdout task_list].
    split; [now left|]. split; [now exists [line]|]. discriminate.
Qed.

Lemma main_loop_spec (fuel : nat) (w : world) (r : result unit) :
  main_loop check_mark circle message fuel w = Some r ->
  exists w',
    r = Return tt w'
    /\ (forall ops, task_list w = snd (exec ops) ->
        exists ops', task_list w' = snd (exec ops'))
    /\ (exists line, In line (stdin w) /\ strip line = "6")
    /\ (exists used, stdin w = (used ++ stdin w')%list)
    /\ exists out, stdout w' = (out ++ [goodbye])%list.
Proof.
  revert w. induction fuel as [|fuel IH]; intros w; [discriminate|].
  cbn [main_loop].
  destruct (turn_spec w) as (b & w1 & -> & S & (used & U) & Stop).
  destruct b.
  - intros [= <-]. exists w1. split; [reflexivity|].
    destruct (Stop eq_refl) as (E & (line & L & C) & O).
    split; [|split; [|split; [now exists used | exact O]]].
    + intros ops R. exists ops. congruence.
    + exists line. rewrite L. split; [now left | exact C].
  - intros H. destruct (IH _ H) as (w' & -> & R & (line & I & C) & (u & U') & O).
    exists w'. split; [reflexivity|].
    split; [|split; [|split; [|exact O]]].
    + intros ops E. destruct S as [S|[o S]].
      * apply (R ops). congruence.
      * apply (R (ops ++ [o])%list). rewrite exec_snoc_store, <- E. exact S.
    + exists line. split; [|exact C]. rewrite U. apply in_or_app. now right.
    + exists (used ++ u)%list. rewrite U, U' at 1. now rewrite app_assoc.
Qed.

(** [main] ends in one way only (no interrupt being sent): some line of
    the input, stripped, is "6".  It then ends normally, the farewell is
    the last thing written, what is left of standard input is a tail of the
    lines given, and the store is one that a sequence of [TaskList] calls
    builds from the empty store. *)
Theorem main_stops_only_on_choice_6
    (fuel : nat) (lines : list string) (r : result unit) :
  main check_mark circle message fuel lines = Some r ->
  exists w',
    r = Return tt w'
    /\ (exists line, In line lines /\ strip line = "6")
    /\ (exists used, lines = (used ++ stdin w')%list)
    /\ (exists out, stdout w' = (out ++ [goodbye])%list)
    /\ exists ops, task_list w' = snd (exec ops).
Proof.
  unfold main, print. cbn [stdin stdout task_list]. intros H.
  destruct (main_loop_spec _ _ _ H) as (w' & -> & R & L & U & O).
  cbn [stdin task_list] in *.
  exists w'. split; [reflexivity|]. split; [exact L|]. split; [exact U|].
  split; [exact O|]. apply (R []). reflexivity.
Qed.

(** At the end of input the program does not stop: every turn shows the
    menu, fails to read a choice, reports the error and goes round again,
    so no number of turns ends the loop. *)
Theorem main_never_stops_at_end_of_input (fuel : nat) (w : world) :
  stdin w = [] ->
  main_loop check_mark circle message fuel w = None
  /\ exists out,
       turn check_mark circle message w
       = Return false
           (World (task_list w) []
              (out
               ++ [(("An error occurred: " ++ message EOFError)
                    ++ nl)%string])%list).
Proof.
  intros E. split.
  - destruct (main_loop check_mark circle message fuel w) as [r|] eqn:H;
      [|reflexivity].
    destruct (main_loop_spec _ _ _ H) as (_ & _ & _ & (line & I & _) & _).
    rewrite E in I. destruct I.
  - unfold turn. unfold bind at 1.
    destruct (display_menu_keeps_world w) as [out0 ->].
    destruct w as [s inp out]. cbn [stdin task_list] in *. subst inp.
    eexists. reflexivity.
Qed.

(** The two choices that call no handler: "6" ends the loop at once with
    the store as it is; a choice that is none of "1" to "6" is reported and
    the loop goes on with the store as it is. *)
Theorem main_loop_exit_and_invalid_choice
    (fuel : nat) (w : world) (line : string) (rest : list string) :
  stdin w = line :: rest ->
  (strip line = "6" ->
   exists out,
     main_loop check_mark circle message (S fuel) w
     = Some (Return tt (World (task_list w) rest (out ++ [goodbye])%list)))
  /\ (~ In (strip line) ["1"; "2"; "3"; "4"; "5"; "6"] ->
      exists out,
        main_loop check_mark circle message (S fuel) w
        = main_loop check_mark circle message fuel
            (World (task_list w) rest
               (out ++ [("Invalid choice. Please enter a number between 1 and 6."
                         ++ nl)%string])%list)).
Proof.
  intros I. cbn [main_loop]. unfold turn. unfold bind at 1. unfold bind at 2.
  destruct (display_menu_keeps_world w) as [out0 ->].
  destruct w as [s inp out]. cbn [stdin task_list] in *. subst inp.
  split.
  - intros E. unfold try_except_Exception, choose, bind at 1, input.
    cbn [stdin stdout task_list]. rewrite E. cbn. eexists. reflexivity.
  - intros N.
    cbv beta iota zeta delta
      [try_except_Exception choose bind input stdin stdout task_list].
    repeat match goal with
           | |- context [String.eqb (strip line) ?c] =>
               destruct (String.eqb_spec (strip line) c) as [E|_];
               [exfalso; apply N; rewrite E; simpl; tauto|]
           end.
    eexists. reflexivity.
Qed.
End ScreenFacts.

Lemma main_stops_only_on_choice_6_witness :
  exists w',
    main "[x]" "[ ]" (fun _ => "EOF when reading a line") 4
      ["1"; "Buy milk"; ""; "2"; "0"; " 6 "; "left"]
    = Some (Return tt w')
    /\ (exists line,
          In line ["1"; "Buy milk"; ""; "2"; "0"; " 6 "; "left"]
          /\ strip line = "6")
    /\ exists used,
         ["1"; "Buy milk"; ""; "2"; "0"; " 6 "; "left"]
         = (used ++ stdin w')%list.
Proof.
  destruct (main "[x]" "[ ]" (fun _ => "EOF when reading a line") 4
              ["1"; "Buy milk"; ""; "2"; "0"; " 6 "; "left"])
    as [r|] eqn:H.
  - destruct (main_stops_only_on_choice_6 _ _ _ _ _ _ H)
      as (w' & -> & L & U & _).
    exists w'. split; [reflexivity|]. split; [exact L | exact U].
  - vm_compute in H. discriminate H.
Defined.

Lemma main_never_stops_at_end_of_input_witness :
  main_loop "[x]" "[ ]" (fun _ => "EOF when reading a line") 5
    (World report_store [] [])
  = None.
Proof.
  exact (proj1 (main_never_stops_at_end_of_input "[x]" "[ ]"
                  (fun _ => "EOF when reading a line") 5
                  (World report_store [] []) eq_refl)).
Defined.

Lemma main_loop_exit_and_invalid_choice_witness :
  exists out,
    main_loop "[x]" "[ ]" (fun _ => "EOF when reading a line") 1
      (World report_store [" 6 "; "left"] [])
    = Some (Return tt (World report_store ["left"] (out ++ [goodbye])%list)).
Proof.
  exact (proj1 (main_loop_exit_and_invalid_choice "[x]" "[ ]"
                  (fun _ => "EOF when reading a line") 0
                  (World report_store [" 6 "; "left"] []) " 6 " ["left"]
                  eq_refl) eq_refl).
Defined.
